(** * AyushBridge: the NAMASTE / ICD-11 mapping engine and its FHIR builder

    A shallow embedding of [backend/mapping_engine.py], of the translate
    builder of [fhir_resources.py] and of the failure branch of the
    [/translate] handler of [backend/main.py], followed by the properties
    of the specification that these functions decide.

    Conventions of the embedding:
    - a Python [str] is the [string] of its UTF-8 bytes: equality,
      emptiness, containment as a substring and the order of two texts
      are the same on the bytes as on the code points;
    - [str.lower] follows the Unicode case mapping, which is no part of
      this repository: the operations that call it take it as a
      parameter, [str_lower], and nothing is assumed of it except where a
      statement says so;
    - a Python [dict] is an insertion-ordered association list with unique
      keys ([PyDict]): assignment to a present key replaces the value in
      place, assignment to an absent key appends;
    - a raw JSON record ([mapping_data]) is a finite map from field names to
      string values, as the dataset format declares them;
    - an exception is a value of [exn], raised through the [result] monad. *)

From Stdlib Require Import String Ascii List Arith Lia Bool.
From stdpp Require Import base option list strings gmap.

Open Scope string_scope.

(** ** Python strings *)

Module PyStr.

(** ASCII text: every byte is below 128. *)
Definition is_ascii_char (c : ascii) : bool := (nat_of_ascii c <? 128)%nat.

Fixpoint is_ascii (s : string) : bool :=
  match s with
  | EmptyString => true
  | String c s' => is_ascii_char c && is_ascii s'
  end.

(** The upper-case ASCII letters, [A-Z]. *)
Definition is_upper (c : ascii) : bool :=
  let n := nat_of_ascii c in (65 <=? n)%nat && (n <=? 90)%nat.

(** What [str.lower] does to ASCII text: [A-Z] moves to [a-z], every
    other character stays. *)
Definition ascii_lower_char (c : ascii) : ascii :=
  if is_upper c then ascii_of_nat (nat_of_ascii c + 32) else c.

Fixpoint ascii_lower (s : string) : string :=
  match s with
  | EmptyString => EmptyString
  | String c s' => String (ascii_lower_char c) (ascii_lower s')
  end.

(** The one fact about [str.lower] that some statements rely on: on ASCII
    text it is [ascii_lower]. *)
Definition lower_on_ascii (str_lower : string -> string) : Prop :=
  forall s, is_ascii s = true -> str_lower s = ascii_lower s.

(** [t.startswith(p)] *)
Fixpoint startswith (p t : string) : bool :=
  match p, t with
  | EmptyString, _ => true
  | String a p', String b t' => Ascii.eqb a b && startswith p' t'
  | String _ _, EmptyString => false
  end.

(** [p in t] on strings: [p] occurs in [t] as a contiguous substring. *)
Fixpoint contains (p t : string) : bool :=
  startswith p t ||
  match t with
  | EmptyString => false
  | String _ t' => contains p t'
  end.

(** Truth value of a string: the empty string is falsy. *)
Definition truthy (s : string) : bool :=
  match s with EmptyString => false | String _ _ => true end.

(** Two characters that are equal, or the same ASCII letter in its two
    cases (the lower-case letter is 32 above the upper-case one). *)
Definition same_letter (a b : ascii) : bool :=
  Ascii.eqb a b
  || (is_upper a && (nat_of_ascii b =? nat_of_ascii a + 32)%nat)
  || (is_upper b && (nat_of_ascii a =? nat_of_ascii b + 32)%nat).

(** Two strings that differ at most in the case of their ASCII letters. *)
Fixpoint case_variant (s t : string) : bool :=
  match s, t with
  | EmptyString, EmptyString => true
  | String a s', String b t' => same_letter a b && case_variant s' t'
  | _, _ => false
  end.

(** Ascending order of [str]: lexicographic on the characters. *)
Definition le (s t : string) : bool := String.leb s t.

End PyStr.

(** ** Exceptions *)

Inductive exn : Type :=
| KeyError (key : string)
| ValueError (value : string)
| IndexError.

Inductive result (A : Type) : Type :=
| Ok (a : A)
| Raise (e : exn).

Arguments Ok {A} a.
Arguments Raise {A} e.

#[global] Instance result_ret : MRet result := fun _ a => Ok a.

#[global] Instance result_bind : MBind result := fun _ _ k r =>
  match r with
  | Ok a => k a
  | Raise e => Raise e
  end.

(** ** Insertion-ordered dictionaries *)

Module PyDict.

Definition t (V : Type) : Type := list (string * V).

Definition empty {V : Type} : t V := [].

(** [d.get(k)] *)
Fixpoint get {V : Type} (k : string) (d : t V) : option V :=
  match d with
  | [] => None
  | (k', v) :: d' => if String.eqb k k' then Some v else get k d'
  end.

(** [k in d] *)
Definition mem {V : Type} (k : string) (d : t V) : bool :=
  match get k d with Some _ => true | None => false end.

(** [d[k]] *)
Definition getitem {V : Type} (k : string) (d : t V) : result V :=
  match get k d with
  | Some v => Ok v
  | None => Raise (KeyError k)
  end.

(** [d[k] = v]: a present key keeps its position, a new key goes last. *)
Fixpoint setitem {V : Type} (k : string) (v : V) (d : t V) : t V :=
  match d with
  | [] => [(k, v)]
  | (k', v') :: d' =>
      if String.eqb k k' then (k', v) :: d' else (k', v') :: setitem k v d'
  end.

Definition keys {V : Type} (d : t V) : list string := map fst d.
Definition values {V : Type} (d : t V) : list V := map snd d.
Definition items {V : Type} (d : t V) : list (string * V) := d.
Definition len {V : Type} (d : t V) : nat := length d.

End PyDict.

(** ** models.py: the equivalence codes *)

Inductive EquivalenceEnum : Type :=
| relatedto | equivalent | equal | wider | subsumes
| narrower | specializes | inexact | unmatched | disjoint.

#[global] Instance EquivalenceEnum_eq_dec : EqDecision EquivalenceEnum.
Proof. solve_decision. Defined.

(** [e.value] *)
Definition EquivalenceEnum_value (e : EquivalenceEnum) : string :=
  match e with
  | relatedto => "relatedto"
  | equivalent => "equivalent"
  | equal => "equal"
  | wider => "wider"
  | subsumes => "subsumes"
  | narrower => "narrower"
  | specializes => "specializes"
  | inexact => "inexact"
  | unmatched => "unmatched"
  | disjoint => "disjoint"
  end.

Definition EquivalenceEnum_members : list EquivalenceEnum :=
  [relatedto; equivalent; equal; wider; subsumes;
   narrower; specializes; inexact; unmatched; disjoint].

(** Lookup of a member by value. *)
Definition EquivalenceEnum_lookup (v : string) : option EquivalenceEnum :=
  find (fun e => String.eqb v (EquivalenceEnum_value e))
       EquivalenceEnum_members.

(** [EquivalenceEnum(v)]: a value outside the enumeration is a
    [ValueError]. *)
Definition EquivalenceEnum_call (v : string) : result EquivalenceEnum :=
  match EquivalenceEnum_lookup v with
  | Some e => Ok e
  | None => Raise (ValueError v)
  end.

(** ** mapping_engine.py: CodeMapping *)

Record CodeMapping : Type := mkCodeMapping {
  namaste_code : string;
  namaste_display : string;
  namaste_system : string;
  icd11_code : string;
  icd11_display : string;
  equivalence : EquivalenceEnum;
  notes : option string
}.

#[global] Instance CodeMapping_eq_dec : EqDecision CodeMapping.
Proof. solve_decision. Defined.

(** One raw record of the dataset file. *)
Abbreviation mapping_data := (gmap string string).

(** [mapping_data[k]] *)
Definition data_getitem (d : mapping_data) (k : string) : result string :=
  match d !! k with
  | Some v => Ok v
  | None => Raise (KeyError k)
  end.

(** [CodeMapping.__init__]: the five string fields are read in order, then
    the equivalence is converted, then the optional notes are read with
    [.get]. *)
Definition CodeMapping_init (d : mapping_data) : result CodeMapping :=
  c ← data_getitem d "namaste_code";
  cd ← data_getitem d "namaste_display";
  cs ← data_getitem d "namaste_system";
  i ← data_getitem d "icd11_code";
  id ← data_getitem d "icd11_display";
  ev ← data_getitem d "equivalence";
  e ← EquivalenceEnum_call ev;
  mret (mkCodeMapping c cd cs i id e (d !! "notes")).

(** ** mapping_engine.py: MappingEngine *)

Abbreviation Metadata := (gmap string string).

(** The parsed dataset file: [data.get("metadata", {})] and
    [data.get("mappings", [])] read these two optional members. *)
Record Dataset : Type := mkDataset {
  ds_metadata : option Metadata;
  ds_mappings : option (list mapping_data)
}.

Record MappingEngine : Type := mkEngine {
  mappings : PyDict.t CodeMapping;
  reverse_mappings : PyDict.t (list CodeMapping);
  metadata : Metadata
}.

(** The state set up by [__init__] before [_load_mappings] runs. *)
Definition engine_initial : MappingEngine :=
  mkEngine PyDict.empty PyDict.empty ∅.

(** One round of the loop of [_load_mappings] on an already built
    [CodeMapping]: overwrite the forward entry, create the reverse list if
    the target code is new, append to the reverse list. *)
Definition index_mapping (st : MappingEngine) (m : CodeMapping)
  : result MappingEngine :=
  let fwd := PyDict.setitem (namaste_code m) m (mappings st) in
  let rev0 :=
    if negb (PyDict.mem (icd11_code m) (reverse_mappings st))
    then PyDict.setitem (icd11_code m) [] (reverse_mappings st)
    else reverse_mappings st in
  l ← PyDict.getitem (icd11_code m) rev0;
  mret (mkEngine fwd (PyDict.setitem (icd11_code m) (l ++ [m])%list rev0)
                 (metadata st)).

(** One round of the loop, from the raw record. *)
Definition load_step (st : MappingEngine) (d : mapping_data)
  : result MappingEngine :=
  m ← CodeMapping_init d;
  index_mapping st m.

(** The [for] loop of [_load_mappings]. The method works on [self] in
    place, so it leaves a state whether it returns or raises: the result
    is that state together with the exception, if any. The only statement
    of a round that can raise is the constructor call, which comes before
    the updates of that round. *)
Fixpoint load_loop (self : MappingEngine) (ds : list mapping_data)
  : MappingEngine * option exn :=
  match ds with
  | [] => (self, None)
  | d :: ds' =>
      match load_step self d with
      | Ok self' => load_loop self' ds'
      | Raise x => (self, Some x)
      end
  end.

(** [_load_mappings]; [file] is [None] when the mappings file does not
    exist, in which case the method logs and returns with the indices
    empty. The [except] clause logs and raises the exception again. *)
Definition _load_mappings (self : MappingEngine) (file : option Dataset)
  : MappingEngine * option exn :=
  match file with
  | None => (self, None)
  | Some data =>
      let self1 := mkEngine (mappings self) (reverse_mappings self)
                            (default ∅ (ds_metadata data)) in
      load_loop self1 (default [] (ds_mappings data))
  end.

(** [MappingEngine.__init__]: an exception of [_load_mappings] leaves the
    constructor, so that the half-filled object is dropped and the caller
    gets no engine. *)
Definition MappingEngine_init (file : option Dataset) : result MappingEngine :=
  match _load_mappings engine_initial file with
  | (self, None) => Ok self
  | (_, Some x) => Raise x
  end.

(** [get_mapping_engine]: the module-level singleton is the first
    component of the state; it is assigned only when the constructor
    returns. *)
Definition get_mapping_engine (instance : option MappingEngine)
    (file : option Dataset) : option MappingEngine * result MappingEngine :=
  match instance with
  | Some e => (Some e, Ok e)
  | None =>
      match MappingEngine_init file with
      | Ok e => (Some e, Ok e)
      | Raise x => (None, Raise x)
      end
  end.

(** *** Translation *)

Definition namaste_system_uri : string :=
  "http://namaste.gov.in/fhir/CodeSystem/namaste".
Definition icd11_system_uri : string := "http://id.who.int/icd11/mms".

(** [translate_namaste_to_icd11]: a [CodeMapping] object is always truthy,
    so [if mapping] tests presence only. *)
Definition translate_namaste_to_icd11 (self : MappingEngine) (code : string)
  : bool * option CodeMapping :=
  match PyDict.get code (mappings self) with
  | Some m => (true, Some m)
  | None => (false, None)
  end.

(** [translate_icd11_to_namaste]: [if mappings] tests that the list is not
    empty. *)
Definition translate_icd11_to_namaste (self : MappingEngine) (code : string)
  : bool * list CodeMapping :=
  match default [] (PyDict.get code (reverse_mappings self)) with
  | [] => (false, [])
  | m :: ms => (true, m :: ms)
  end.

(** [translate_code]: returns (success, primary mapping, all mappings). *)
Definition translate_code (self : MappingEngine)
    (code source_system target_system : string)
  : bool * option CodeMapping * list CodeMapping :=
  if String.eqb source_system namaste_system_uri
     && String.eqb target_system icd11_system_uri
  then
    let '(success, mapping) := translate_namaste_to_icd11 self code in
    (success, mapping, match mapping with Some m => [m] | None => [] end)
  else if String.eqb source_system icd11_system_uri
          && String.eqb target_system namaste_system_uri
  then
    let '(success, ms) := translate_icd11_to_namaste self code in
    (success, head ms, ms)
  else (false, None, []).

(** [get_mapping_by_code] *)
Definition get_mapping_by_code (self : MappingEngine) (code : string)
  : option CodeMapping :=
  PyDict.get code (mappings self).

(** *** Search *)

(** The fields of a search: the data attributes that [__init__] sets on
    a [CodeMapping]. A name outside them (a method, a class attribute
    such as the docstring) is no field of this model. *)
Inductive Field : Type :=
| field_namaste_code | field_namaste_display | field_namaste_system
| field_icd11_code | field_icd11_display | field_equivalence | field_notes.

(** The name of a field in the source. *)
Definition Field_name (f : Field) : string :=
  match f with
  | field_namaste_code => "namaste_code"
  | field_namaste_display => "namaste_display"
  | field_namaste_system => "namaste_system"
  | field_icd11_code => "icd11_code"
  | field_icd11_display => "icd11_display"
  | field_equivalence => "equivalence"
  | field_notes => "notes"
  end.

(** [getattr(mapping, field, default)] on a field: the attribute exists,
    so the default is never taken; the notes may be [None]; the
    equivalence is a [str] whose text is its value. *)
Definition getattr (m : CodeMapping) (field : Field) : option string :=
  match field with
  | field_namaste_code => Some (namaste_code m)
  | field_namaste_display => Some (namaste_display m)
  | field_namaste_system => Some (namaste_system m)
  | field_icd11_code => Some (icd11_code m)
  | field_icd11_display => Some (icd11_display m)
  | field_equivalence => Some (EquivalenceEnum_value (equivalence m))
  | field_notes => notes m
  end.

(** The test of the inner loop:
    [field_value and query_lower in field_value.lower()]. *)
Definition field_hit (str_lower : string -> string) (query_lower : string)
    (m : CodeMapping) (field : Field) : bool :=
  match getattr m field with
  | Some v => PyStr.truthy v && PyStr.contains query_lower (str_lower v)
  | None => false
  end.

(** The inner loop: stop at the first field that hits. *)
Fixpoint any_field_hit (str_lower : string -> string) (query_lower : string)
    (m : CodeMapping) (fields : list Field) : bool :=
  match fields with
  | [] => false
  | f :: fs => if field_hit str_lower query_lower m f then true
               else any_field_hit str_lower query_lower m fs
  end.

(** The outer loop over [self.mappings.values()]. *)
Fixpoint search_loop (str_lower : string -> string) (query_lower : string)
    (fields : list Field) (ms : list CodeMapping) : list CodeMapping :=
  match ms with
  | [] => []
  | m :: ms' =>
      if any_field_hit str_lower query_lower m fields
      then m :: search_loop str_lower query_lower fields ms'
      else search_loop str_lower query_lower fields ms'
  end.

Definition default_search_fields : list Field :=
  [field_namaste_display; field_icd11_display; field_notes].

(** [search_mappings] *)
Definition search_mappings (str_lower : string -> string)
    (self : MappingEngine) (query : string)
    (search_fields : option (list Field)) : list CodeMapping :=
  let fields := default default_search_fields search_fields in
  let query_lower := str_lower query in
  search_loop str_lower query_lower fields (PyDict.values (mappings self)).

(** *** Concept-map grouping *)

Module ConceptTarget.
Record t : Type := mk { code : string; display : string; equivalence : string }.
End ConceptTarget.

Module ConceptEntry.
Record t : Type := mk {
  source_code : string;
  source_display : string;
  targets : list ConceptTarget.t
}.
End ConceptEntry.

Definition forward_entry (m : CodeMapping) : ConceptEntry.t :=
  ConceptEntry.mk (namaste_code m) (namaste_display m)
    [ConceptTarget.mk (icd11_code m) (icd11_display m)
                      (EquivalenceEnum_value (equivalence m))].

Definition reverse_target (m : CodeMapping) : ConceptTarget.t :=
  ConceptTarget.mk (namaste_code m) (namaste_display m)
                   (EquivalenceEnum_value (equivalence m)).

(** The loop over [self.reverse_mappings.items()], with the set of
    processed codes and the output list as its state; [mappings[0]] raises
    [IndexError] on an empty list. *)
Fixpoint reverse_group_loop (processed : gset string)
    (out : list ConceptEntry.t) (items : list (string * list CodeMapping))
  : result (list ConceptEntry.t) :=
  match items with
  | [] => Ok out
  | (icd, ms) :: items' =>
      if bool_decide (icd ∉ processed) then
        let targets := map reverse_target ms in
        first ← match ms with
                | m :: _ => Ok m
                | [] => Raise IndexError
                end;
        reverse_group_loop ({[icd]} ∪ processed)
          (out ++ [ConceptEntry.mk icd (icd11_display first) targets])%list
          items'
      else reverse_group_loop processed out items'
  end.

(** [get_mappings_for_concept_map] *)
Definition get_mappings_for_concept_map (self : MappingEngine)
    (source_system target_system : string) : result (list ConceptEntry.t) :=
  if String.eqb source_system namaste_system_uri
     && String.eqb target_system icd11_system_uri
  then Ok (map forward_entry (PyDict.values (mappings self)))
  else if String.eqb source_system icd11_system_uri
          && String.eqb target_system namaste_system_uri
  then reverse_group_loop ∅ [] (PyDict.items (reverse_mappings self))
  else Ok [].

(** *** Statistics *)

Record Statistics : Type := mkStatistics {
  total_mappings : nat;
  by_traditional_system : PyDict.t nat;
  by_equivalence : PyDict.t nat;
  reverse_mappings_count : nat;
  stats_metadata : Metadata
}.

(** [counts[k] = counts.get(k, 0) + 1] *)
Definition bump (k : string) (counts : PyDict.t nat) : PyDict.t nat :=
  PyDict.setitem k (default 0 (PyDict.get k counts) + 1) counts.

(** The loop of [get_statistics]; its state is the pair of counters. *)
Fixpoint count_loop (system_counts equivalence_counts : PyDict.t nat)
    (ms : list CodeMapping) : PyDict.t nat * PyDict.t nat :=
  match ms with
  | [] => (system_counts, equivalence_counts)
  | m :: ms' =>
      count_loop (bump (namaste_system m) system_counts)
                 (bump (EquivalenceEnum_value (equivalence m))
                       equivalence_counts)
                 ms'
  end.

(** [get_statistics] *)
Definition get_statistics (self : MappingEngine) : Statistics :=
  let '(system_counts, equivalence_counts) :=
    count_loop PyDict.empty PyDict.empty (PyDict.values (mappings self)) in
  mkStatistics (PyDict.len (mappings self)) system_counts equivalence_counts
               (PyDict.len (reverse_mappings self)) (metadata self).

(** [sum(d.values())] *)
Definition sum_values (d : PyDict.t nat) : nat :=
  fold_right Nat.add 0 (PyDict.values d).

(** *** Validation helper *)

Definition traditional_systems : list string := ["Ayurveda"; "Siddha"; "Unani"].

Definition recognized_system (s : string) : bool :=
  existsb (String.eqb s) traditional_systems.

(** [validate_mapping]: the list of complaints about one mapping. It is
    not called by [_load_mappings]. *)
Definition validate_mapping (m : CodeMapping) : list string :=
  ((if PyStr.truthy (namaste_code m) then [] else ["Missing NAMASTE code"])
   ++ (if PyStr.truthy (icd11_code m) then [] else ["Missing ICD-11 code"])
   ++ (if PyStr.truthy (namaste_display m) then []
       else ["Missing NAMASTE display name"])
   ++ (if PyStr.truthy (icd11_display m) then []
       else ["Missing ICD-11 display name"])
   ++ (if recognized_system (namaste_system m) then []
       else ["Invalid traditional medicine system"]))%list.

(** ** models.py: the FHIR shapes *)

Module Coding.
Record t : Type := mk {
  system : string;
  code : string;
  display : option string
}.
End Coding.

Module ParameterPart.
Record t : Type := mk {
  name : string;
  valueCode : option string;
  valueCoding : option Coding.t
}.
End ParameterPart.

Module FhirParameter.
Record t : Type := mk {
  name : string;
  valueBoolean : option bool;
  valueString : option string;
  part : option (list ParameterPart.t)
}.
End FhirParameter.

Module ParametersResource.
Record t : Type := mk {
  resourceType : string;
  parameter : list FhirParameter.t
}.
(** The constructor call of the source: [resourceType] takes its
    default. *)
Definition make (ps : list FhirParameter.t) : t := mk "Parameters" ps.
End ParametersResource.

Module TranslateRequest.
Record t : Type := mk {
  code : string;
  system : string;
  target_system : string;
  language : option string
}.
End TranslateRequest.

(** Truth value of an [Optional[str]]: [None] and the empty string are
    falsy. *)
Definition opt_truthy (o : option string) : bool :=
  match o with
  | Some s => PyStr.truthy s
  | None => false
  end.

(** ** fhir_resources.py: FHIRResourceBuilder.build_translate_response *)

Definition build_translate_response (result : bool) (source_code : string)
    (target_code target_display target_system : option string)
    (equivalence : EquivalenceEnum) (ai_explanation : option string)
  : ParametersResource.t :=
  let parameters := [FhirParameter.mk "result" (Some result) None None] in
  let parameters :=
    match target_code, target_system with
    | Some tc, Some ts =>
        if result && PyStr.truthy tc && PyStr.truthy ts then
          let match_parts :=
            [ParameterPart.mk "equivalence"
               (Some (EquivalenceEnum_value equivalence)) None;
             ParameterPart.mk "concept" None
               (Some (Coding.mk ts tc target_display))] in
          (parameters
           ++ [FhirParameter.mk "match" None None (Some match_parts)])%list
        else parameters
    | _, _ => parameters
    end in
  let parameters :=
    if opt_truthy ai_explanation
    then (parameters
          ++ [FhirParameter.mk "ai_explanation" None ai_explanation None])%list
    else parameters in
  ParametersResource.make parameters.

(** The call with every optional argument at its default. *)
Definition build_translate_failure (source_code : string)
  : ParametersResource.t :=
  build_translate_response false source_code None None None equivalent None.

(** ** ai_service.py: the language check *)

Definition SUPPORTED_LANGUAGES : list string :=
  ["hi"; "ta"; "te"; "bn"; "gu"; "kn"; "ml"; "mr"; "pa"; "or"; "as"; "sa";
   "ur"; "ne"; "si";
   "en"; "es"; "fr"; "de"; "it"; "pt"; "ru"; "zh"; "ja"; "ar"; "ko"; "tr";
   "nl"; "sv"; "no";
   "da"; "fi"; "pl"; "cs"; "hu"; "ro"; "bg"; "hr"; "sk"; "sl"; "et"; "lv";
   "lt"; "he"; "th";
   "vi"; "id"; "ms"; "tl"; "my"; "km"; "lo"; "ka"; "am"; "sw"; "zu"; "af";
   "is"; "mt"; "cy"].

(** [language.lower() in SUPPORTED_LANGUAGES] *)
Definition validate_language_code (str_lower : string -> string)
    (language : string) : bool :=
  existsb (String.eqb (str_lower language)) SUPPORTED_LANGUAGES.

(** ** main.py: the [/translate] handler *)

Inductive http (A : Type) : Type :=
| Response (a : A)
| HTTPException (status_code : nat) (detail : string).

Arguments Response {A} a.
Arguments HTTPException {A} status_code detail.

Section Handler.

(** [str.lower], used by the language check. *)
Variable str_lower : string -> string.

(** The explanation collaborator: absent, or a function of the source
    code, source display, target code, target display and language that
    returns a text, nothing, or fails. *)
Variable ai_service :
  option (string -> string -> string -> string -> string ->
          result (option string)).

(** The [try] around the explanation call: a failure is logged and the
    explanation stays [None]. *)
Definition explanation (request : TranslateRequest.t)
    (primary : CodeMapping) : option string :=
  match TranslateRequest.language request, ai_service with
  | Some lang, Some generate =>
      if PyStr.truthy lang then
        let '(source_display, target_display, target_code) :=
          if String.eqb (TranslateRequest.system request) namaste_system_uri
          then (namaste_display primary, icd11_display primary,
                icd11_code primary)
          else (icd11_display primary, namaste_display primary,
                namaste_code primary) in
        match generate (TranslateRequest.code request) source_display
                       target_code target_display lang with
        | Ok text => text
        | Raise _ => None
        end
      else None
  | _, _ => None
  end.

(** The handler; [mapping_engine] is the module-level global set at
    startup. Any exception other than an [HTTPException] becomes a 500
    whose detail carries the text of the exception. *)
Definition translate_handler (mapping_engine : option MappingEngine)
    (request : TranslateRequest.t) : http ParametersResource.t :=
  if opt_truthy (TranslateRequest.language request)
     && negb (validate_language_code str_lower
                (default EmptyString (TranslateRequest.language request)))
  then HTTPException 400
         ("Unsupported language code: "
          +:+ default EmptyString (TranslateRequest.language request))
  else
    match mapping_engine with
    | None =>
        HTTPException 500
          ("Translation failed: "
           +:+ "'NoneType' object has no attribute 'translate_code'")
    | Some engine =>
        let '(success, primary_mapping, _) :=
          translate_code engine (TranslateRequest.code request)
            (TranslateRequest.system request)
            (TranslateRequest.target_system request) in
        if negb success
        then Response (build_translate_failure (TranslateRequest.code request))
        else
          match primary_mapping with
          | None =>
              HTTPException 500
                ("Translation failed: 'NoneType' object has no attribute "
                 +:+ (if String.eqb (TranslateRequest.system request)
                                    namaste_system_uri
                      then "'icd11_code'" else "'namaste_code'"))
          | Some primary =>
              let ai_explanation := explanation request primary in
              if String.eqb (TranslateRequest.system request)
                            namaste_system_uri
              then Response (build_translate_response true
                     (TranslateRequest.code request)
                     (Some (icd11_code primary))
                     (Some (icd11_display primary))
                     (Some (TranslateRequest.target_system request))
                     (equivalence primary) ai_explanation)
              else Response (build_translate_response true
                     (TranslateRequest.code request)
                     (Some (namaste_code primary))
                     (Some (namaste_display primary))
                     (Some (TranslateRequest.target_system request))
                     (equivalence primary) ai_explanation)
          end
    end.

End Handler.

(** ** mapping_engine.py: CodeMapping.to_dict *)

(** The dictionary of [to_dict], in the order of its keys; a value is a
    string or [None] (the notes of a mapping without notes). *)
Definition to_dict (m : CodeMapping) : PyDict.t (option string) :=
  [("namaste_code", Some (namaste_code m));
   ("namaste_display", Some (namaste_display m));
   ("namaste_system", Some (namaste_system m));
   ("icd11_code", Some (icd11_code m));
   ("icd11_display", Some (icd11_display m));
   ("equivalence", Some (EquivalenceEnum_value (equivalence m)));
   ("notes", notes m)].

(** ** models.py: the ConceptMap shapes *)

Module ConceptMapTarget.
Record t : Type := mk {
  code : string;
  display : option string;
  equivalence : EquivalenceEnum
}.
End ConceptMapTarget.

Module ConceptMapElement.
Record t : Type := mk {
  code : string;
  display : option string;
  target : list ConceptMapTarget.t
}.
End ConceptMapElement.

Module ConceptMapGroup.
Record t : Type := mk {
  source : string;
  target : string;
  element : list ConceptMapElement.t
}.
End ConceptMapGroup.

Module ConceptMapResource.
Record t : Type := mk {
  resourceType : string;
  id : string;
  url : string;
  name : string;
  title : string;
  status : string;
  description : option string;
  group : list ConceptMapGroup.t
}.
End ConceptMapResource.

(** ** fhir_resources.py: build_concept_map, build_error_parameters *)

(** The inner loop of [build_concept_map] over the targets of one mapping
    dictionary, as [get_mappings_for_concept_map] builds them (every key
    present): the equivalence text is converted back to the enumeration,
    which raises [ValueError] on a text outside it. *)
Fixpoint build_targets (targets : list ConceptTarget.t)
  : result (list ConceptMapTarget.t) :=
  match targets with
  | [] => Ok []
  | target :: targets' =>
      e ← EquivalenceEnum_call (ConceptTarget.equivalence target);
      rest ← build_targets targets';
      mret (ConceptMapTarget.mk (ConceptTarget.code target)
              (Some (ConceptTarget.display target)) e :: rest)
  end.

(** The outer loop over the mapping dictionaries. *)
Fixpoint build_elements (mappings : list ConceptEntry.t)
  : result (list ConceptMapElement.t) :=
  match mappings with
  | [] => Ok []
  | mapping :: mappings' =>
      targets ← build_targets (ConceptEntry.targets mapping);
      rest ← build_elements mappings';
      mret (ConceptMapElement.mk (ConceptEntry.source_code mapping)
              (Some (ConceptEntry.source_display mapping)) targets :: rest)
  end.

(** [build_concept_map]: one group holding all the elements;
    [resourceType] and [status] take their defaults. *)
Definition build_concept_map (map_id name title source_system
    target_system : string) (mappings : list ConceptEntry.t)
    (description : option string) : result ConceptMapResource.t :=
  elements ← build_elements mappings;
  mret (ConceptMapResource.mk "ConceptMap" map_id
          ("http://ayushbridge.org/fhir/ConceptMap/" +:+ map_id)
          name title "active" description
          [ConceptMapGroup.mk source_system target_system elements]).

(** [build_error_parameters] *)
Definition build_error_parameters (error_message : string)
    (error_code : option string) : ParametersResource.t :=
  let parameters :=
    [FhirParameter.mk "result" (Some false) None None;
     FhirParameter.mk "error" None (Some error_message) None] in
  ParametersResource.make
    (if opt_truthy error_code
     then (parameters
           ++ [FhirParameter.mk "error_code" None error_code None])%list
     else parameters).

(** The predefined ConceptMap configurations. *)
Module ConceptMapConfig.
Record t : Type := mk {
  name : string;
  title : string;
  description : string;
  source_system : string;
  target_system : string
}.
End ConceptMapConfig.

Definition PREDEFINED_CONCEPT_MAPS : PyDict.t ConceptMapConfig.t :=
  [("namaste-to-icd11",
    ConceptMapConfig.mk "NAMASTEtoICD11" "Mapping from NAMASTE to ICD-11"
      ("Official mapping between NAMASTE codes for traditional Indian "
       +:+ "medicine and ICD-11 codes")
      "http://namaste.gov.in/fhir/CodeSystem/namaste"
      "http://id.who.int/icd11/mms");
   ("icd11-to-namaste",
    ConceptMapConfig.mk "ICD11toNAMASTE" "Mapping from ICD-11 to NAMASTE"
      ("Reverse mapping between ICD-11 codes and NAMASTE codes for "
       +:+ "traditional Indian medicine")
      "http://id.who.int/icd11/mms"
      "http://namaste.gov.in/fhir/CodeSystem/namaste")].

(** ** main.py: the [/ConceptMap] and [/search] handlers *)

(** The text of an exception, [str(e)], for keys and values that contain
    no quote or escape character. *)
Definition exn_str (x : exn) : string :=
  match x with
  | KeyError k => "'" +:+ k +:+ "'"
  | ValueError v => "'" +:+ v +:+ "' is not a valid EquivalenceEnum"
  | IndexError => "list index out of range"
  end.

(** [get_concept_map]: an unknown identifier is a 404, raised before the
    engine is touched; any other exception becomes a 500. *)
Definition get_concept_map (mapping_engine : option MappingEngine)
    (concept_map_id : string) : http ConceptMapResource.t :=
  match PyDict.get concept_map_id PREDEFINED_CONCEPT_MAPS with
  | None =>
      HTTPException 404 ("ConceptMap '" +:+ concept_map_id +:+ "' not found")
  | Some config =>
      match mapping_engine with
      | None =>
          HTTPException 500
            ("Failed to retrieve ConceptMap: 'NoneType' object has no "
             +:+ "attribute 'get_mappings_for_concept_map'")
      | Some engine =>
          match
            mappings ← get_mappings_for_concept_map engine
                         (ConceptMapConfig.source_system config)
                         (ConceptMapConfig.target_system config);
            build_concept_map concept_map_id
              (ConceptMapConfig.name config) (ConceptMapConfig.title config)
              (ConceptMapConfig.source_system config)
              (ConceptMapConfig.target_system config)
              mappings (Some (ConceptMapConfig.description config))
          with
          | Ok concept_map => Response concept_map
          | Raise x =>
              HTTPException 500
                ("Failed to retrieve ConceptMap: " +:+ exn_str x)
          end
      end
  end.

Module SearchResponse.
Record t : Type := mk {
  query : string;
  total_results : nat;
  returned_results : nat;
  results : list (PyDict.t (option string))
}.
End SearchResponse.

(** The [/search] handler ([search_mappings] of main.py): the body that
    runs once the query parameters have passed their declared bounds;
    [results[:limit]] keeps the first [limit] results. *)
Definition search_handler (str_lower : string -> string)
    (mapping_engine : option MappingEngine)
    (q : string) (limit : nat) : http SearchResponse.t :=
  match mapping_engine with
  | None =>
      HTTPException 500
        ("Search failed: 'NoneType' object has no attribute "
         +:+ "'search_mappings'")
  | Some engine =>
      let results := search_mappings str_lower engine q None in
      let limited_results := take limit results in
      Response (SearchResponse.mk q (length results)
                  (length limited_results) (map to_dict limited_results))
  end.

(** * Vocabulary of the properties *)

(** ** The records of a dataset and the indices built from them *)

(** The records of a raw list, converted one by one. *)
Fixpoint parse_records (ds : list mapping_data) : result (list CodeMapping) :=
  match ds with
  | [] => Ok []
  | d :: ds' =>
      m ← CodeMapping_init d; ms ← parse_records ds'; mret (m :: ms)
  end.

(** The records of a dataset file, in file order (none when a record does
    not convert). *)
Definition dataset_records (data : Dataset) : list CodeMapping :=
  match parse_records (default [] (ds_mappings data)) with
  | Ok ms => ms
  | Raise _ => []
  end.

(** What one round of the loop leaves behind. *)
Definition indexed (st : MappingEngine) (m : CodeMapping) : MappingEngine :=
  mkEngine
    (PyDict.setitem (namaste_code m) m (mappings st))
    (PyDict.setitem (icd11_code m)
       (default [] (PyDict.get (icd11_code m) (reverse_mappings st))
        ++ [m])%list
       (reverse_mappings st))
    (metadata st).

Definition indexed_all (st : MappingEngine) (ms : list CodeMapping)
  : MappingEngine :=
  fold_left indexed ms st.

(** The engine before the loop, with the metadata already read. *)
Definition empty_engine (md : Metadata) : MappingEngine :=
  mkEngine PyDict.empty PyDict.empty md.

Definition loaded_state (data : Dataset) : MappingEngine :=
  indexed_all (empty_engine (default ∅ (ds_metadata data)))
              (dataset_records data).

(** A list without its repetitions, each element at its first position. *)
Fixpoint first_occurrences (l : list string) : list string :=
  match l with
  | [] => []
  | x :: l' => x :: filter (fun y => y ≠ x) (first_occurrences l')
  end.

(** The records carrying a given source code, resp. target code. *)
Definition with_source (k : string) (ms : list CodeMapping)
  : list CodeMapping :=
  filter (fun m => namaste_code m = k) ms.
Definition with_target (k : string) (ms : list CodeMapping)
  : list CodeMapping :=
  filter (fun m => icd11_code m = k) ms.

(** The number of records held by all the lists of a reverse index. *)
Definition reverse_total (d : PyDict.t (list CodeMapping)) : nat :=
  fold_right (fun item acc => length item.2 + acc) 0 d.

(** The group element built from one item of the reverse index. *)
Definition group_entry (item : string * list CodeMapping) : ConceptEntry.t :=
  ConceptEntry.mk item.1
    (from_option icd11_display EmptyString (head item.2))
    (map reverse_target item.2).

(** ** Malformed records *)

Definition required_fields : list string :=
  ["namaste_code"; "namaste_display"; "namaste_system";
   "icd11_code"; "icd11_display"; "equivalence"].

(** A raw record that lacks a required field or whose equivalence is not
    one of the ten codes. *)
Definition malformed (d : mapping_data) : Prop :=
  (exists f, f ∈ required_fields /\ d !! f = None)
  \/ (exists v, d !! "equivalence" = Some v /\ EquivalenceEnum_lookup v = None).

(** What an exception says about the raw record that caused it: a
    [KeyError] carries the name of a required field the record lacks, a
    [ValueError] carries the record's equivalence value. *)
Definition describes (d : mapping_data) (x : exn) : Prop :=
  match x with
  | KeyError f => f ∈ required_fields /\ d !! f = None
  | ValueError v =>
      d !! "equivalence" = Some v /\ EquivalenceEnum_lookup v = None
  | IndexError => False
  end.

(** ** ASCII records *)

(** A record all of whose texts are ASCII. *)
Definition ascii_record (m : CodeMapping) : bool :=
  PyStr.is_ascii (namaste_code m) && PyStr.is_ascii (namaste_display m)
  && PyStr.is_ascii (namaste_system m) && PyStr.is_ascii (icd11_code m)
  && PyStr.is_ascii (icd11_display m)
  && match notes m with Some n => PyStr.is_ascii n | None => true end.

(** ** Order of codes *)

(** Ascending order of a list of codes. *)
Fixpoint ascending (l : list string) : bool :=
  match l with
  | [] => true
  | x :: l' =>
      match l' with
      | [] => true
      | y :: _ => PyStr.le x y && ascending l'
      end
  end.

(** ** Reading a Parameters resource *)

(** The value of the [result] parameter, the parameters named [match],
    and the codings carried by any part of a resource. *)
Definition result_flag (r : ParametersResource.t) : option bool :=
  match List.find (fun p => String.eqb (FhirParameter.name p) "result")
                  (ParametersResource.parameter r) with
  | Some p => FhirParameter.valueBoolean p
  | None => None
  end.

Definition match_parameters (r : ParametersResource.t) : list FhirParameter.t :=
  List.filter (fun p => String.eqb (FhirParameter.name p) "match")
              (ParametersResource.parameter r).

Definition target_codings (r : ParametersResource.t) : list Coding.t :=
  flat_map
    (fun p => omap ParameterPart.valueCoding
                (default [] (FhirParameter.part p)))
    (ParametersResource.parameter r).

Definition failure_resource : ParametersResource.t :=
  ParametersResource.mk "Parameters"
    [FhirParameter.mk "result" (Some false) None None].

(** ** Sample datasets *)

Definition raw_record (c cd cs i id e : string) : mapping_data :=
  list_to_map
    [("namaste_code", c); ("namaste_display", cd); ("namaste_system", cs);
     ("icd11_code", i); ("icd11_display", id); ("equivalence", e)].

Definition dataset_of (rs : list mapping_data) : Dataset :=
  mkDataset (Some ∅) (Some rs).

(** The record of the concrete scenario of the specification. *)
Definition pandu : CodeMapping :=
  mkCodeMapping "NAM-1001" "Pandu" "Ayurveda" "DB64.0"
                "Iron deficiency anaemia" equivalent None.

Definition pandu_data : Dataset :=
  dataset_of [raw_record "NAM-1001" "Pandu" "Ayurveda" "DB64.0"
                         "Iron deficiency anaemia" "equivalent"].

(** Two source codes mapped to one target code. *)
Definition kamala : CodeMapping :=
  mkCodeMapping "NAM-1002" "Kamala" "Ayurveda" "DB64.0"
                "Iron deficiency anaemia" wider None.

Definition shared_target_data : Dataset :=
  dataset_of [raw_record "NAM-1001" "Pandu" "Ayurveda" "DB64.0"
                         "Iron deficiency anaemia" "equivalent";
              raw_record "NAM-1002" "Kamala" "Ayurveda" "DB64.0"
                         "Iron deficiency anaemia" "wider"].

(** One source code given twice, with two different targets. *)
Definition pandu_again : CodeMapping :=
  mkCodeMapping "NAM-1001" "Pandu (revised)" "Ayurveda" "3A00"
                "Anaemia, unspecified" inexact None.

Definition duplicate_source_data : Dataset :=
  dataset_of [raw_record "NAM-1001" "Pandu" "Ayurveda" "DB64.0"
                         "Iron deficiency anaemia" "equivalent";
              raw_record "NAM-1001" "Pandu (revised)" "Ayurveda" "3A00"
                         "Anaemia, unspecified" "inexact"].

(** A dataset whose only record carries a system tag outside
    Ayurveda/Siddha/Unani. *)
Definition homeopathy : CodeMapping :=
  mkCodeMapping "NAM-9001" "Jwara" "Homeopathy" "MG26" "Fever" equivalent None.

Definition unknown_system_data : Dataset :=
  dataset_of [raw_record "NAM-9001" "Jwara" "Homeopathy" "MG26" "Fever"
                         "equivalent"].

(** A raw record without its [icd11_code], alone and after a good record. *)
Definition no_target_raw : mapping_data :=
  list_to_map
    [("namaste_code", "NAM-9002"); ("namaste_display", "Kasa");
     ("namaste_system", "Siddha"); ("icd11_display", "Cough");
     ("equivalence", "equivalent")].

Definition bad_first_data : Dataset := dataset_of [no_target_raw].
Definition bad_second_data : Dataset :=
  dataset_of [raw_record "NAM-1001" "Pandu" "Ayurveda" "DB64.0"
                         "Iron deficiency anaemia" "equivalent";
              no_target_raw].

Definition madhumeha : CodeMapping :=
  mkCodeMapping "NAM-2002" "Madhumeha" "Ayurveda" "5A11"
                "Type 2 diabetes mellitus" equivalent None.

Definition prameha : CodeMapping :=
  mkCodeMapping "NAM-1001" "Prameha" "Ayurveda" "5A14"
                "Diabetes mellitus, type unspecified" wider None.

(** The higher source code comes first in the file. *)
Definition unsorted_data : Dataset :=
  dataset_of [raw_record "NAM-2002" "Madhumeha" "Ayurveda" "5A11"
                         "Type 2 diabetes mellitus" "equivalent";
              raw_record "NAM-1001" "Prameha" "Ayurveda" "5A14"
                         "Diabetes mellitus, type unspecified" "wider"].

(** A record whose displays are empty and that has no notes. *)
Definition blank : CodeMapping :=
  mkCodeMapping "NAM-3003" EmptyString "Unani" "XY" EmptyString equivalent None.

Definition blank_data : Dataset :=
  dataset_of [raw_record "NAM-3003" EmptyString "Unani" "XY" EmptyString
                         "equivalent"].

(** ** Further vocabulary *)

(** A [to_dict] dictionary read as a raw record: a key that holds [None]
    reads like a key that is absent ([.get] gives [None] for both). *)
Definition as_mapping_data (d : PyDict.t (option string)) : mapping_data :=
  list_to_map (omap (fun kv => match kv.2 with
                               | Some v => Some (kv.1, v)
                               | None => None
                               end) d).

(** The target entry of a ConceptMap element for one record, in the
    forward and in the reverse direction. *)
Definition forward_map_target (m : CodeMapping) : ConceptMapTarget.t :=
  ConceptMapTarget.mk (icd11_code m) (Some (icd11_display m)) (equivalence m).
Definition reverse_map_target (m : CodeMapping) : ConceptMapTarget.t :=
  ConceptMapTarget.mk (namaste_code m) (Some (namaste_display m))
                      (equivalence m).

(** A raw record with an equivalence outside the enumeration, and two
    good raw records. *)
Definition bad_equivalence_raw : mapping_data :=
  raw_record "NAM-9003" "Shwasa" "Unani" "CA23" "Asthma" "similar".
Definition pandu_raw : mapping_data :=
  raw_record "NAM-1001" "Pandu" "Ayurveda" "DB64.0"
             "Iron deficiency anaemia" "equivalent".
Definition kamala_raw : mapping_data :=
  raw_record "NAM-1002" "Kamala" "Ayurveda" "DB64.0"
             "Iron deficiency anaemia" "wider".

(** * Properties *)

(** ** Dictionaries *)

Module PyDictFacts.
Import PyDict.

Section Facts.
Context {V : Type}.
Implicit Types (d : t V) (k : string) (v : V).

Lemma get_setitem_eq d k v : get k (setitem k v d) = Some v.
Proof.
  induction d as [|[k' v'] d IH]; simpl.
  - by rewrite String.eqb_refl.
  - destruct (String.eqb k k') eqn:E; simpl; rewrite E; [done|apply IH].
Qed.

Lemma get_setitem_ne d k k' v :
  k ≠ k' -> get k' (setitem k v d) = get k' d.
Proof.
  intros Hne. induction d as [|[k0 v0] d IH]; simpl.
  - destruct (String.eqb_spec k' k); congruence.
  - destruct (String.eqb_spec k k0) as [->|]; simpl.
    + destruct (String.eqb_spec k' k0); congruence.
    + by rewrite IH.
Qed.

Lemma mem_keys d k : mem k d = true <-> k ∈ keys d.
Proof.
  unfold mem, keys. induction d as [|[k0 v0] d IH]; simpl.
  - split; [done|]. by intros ?%elem_of_nil.
  - rewrite elem_of_cons. destruct (String.eqb_spec k k0) as [->|Hne].
    + split; auto.
    + rewrite IH. split; [auto|]. by intros [?|?].
Qed.

Lemma get_None_keys d k : get k d = None <-> k ∉ keys d.
Proof.
  rewrite <- mem_keys. unfold mem. by destruct (get k d).
Qed.

Lemma keys_setitem d k v :
  keys (setitem k v d) = if mem k d then keys d else (keys d ++ [k])%list.
Proof.
  unfold mem, keys. induction d as [|[k0 v0] d IH]; simpl; [done|].
  destruct (String.eqb_spec k k0) as [->|Hne]; simpl; [done|].
  rewrite IH. by destruct (get k d).
Qed.

Lemma setitem_setitem d k v v' :
  setitem k v (setitem k v' d) = setitem k v d.
Proof.
  induction d as [|[k0 v0] d IH]; simpl.
  - by rewrite String.eqb_refl.
  - destruct (String.eqb k k0) eqn:E; simpl; rewrite E; [done|].
    by rewrite IH.
Qed.

Lemma len_setitem d k v :
  len (setitem k v d) = if mem k d then len d else S (len d).
Proof.
  unfold len. rewrite <- !(length_map fst). fold (keys (setitem k v d)).
  fold (keys d). rewrite keys_setitem.
  destruct (mem k d); [done|]. rewrite length_app. simpl. lia.
Qed.

(** A value present under [k] is listed by [items] at that key. *)
Lemma get_Some_items d k v : get k d = Some v -> (k, v) ∈ items d.
Proof.
  unfold items. induction d as [|[k0 v0] d IH]; simpl; [done|].
  destruct (String.eqb_spec k k0) as [->|Hne].
  - intros [= ->]. apply elem_of_cons. by left.
  - intros H. apply elem_of_cons. right. auto.
Qed.

Lemma items_get_NoDup d k v :
  NoDup (keys d) -> (k, v) ∈ items d -> get k d = Some v.
Proof.
  unfold items, keys. induction d as [|[k0 v0] d IH]; simpl.
  - by intros _ ?%elem_of_nil.
  - intros [Hnotin Hnd]%NoDup_cons [Heq|Hin]%elem_of_cons.
    + injection Heq as -> ->. by rewrite String.eqb_refl.
    + destruct (String.eqb_spec k k0) as [->|Hne]; [|auto].
      exfalso. apply Hnotin. apply list_elem_of_fmap.
      by exists (k0, v).
Qed.

End Facts.
End PyDictFacts.

(** ** Loading *)

Lemma index_mapping_indexed st m : index_mapping st m = Ok (indexed st m).
Proof.
  unfold index_mapping, indexed, PyDict.getitem, PyDict.mem.
  destruct (PyDict.get (icd11_code m) (reverse_mappings st)) as [l|] eqn:E;
    simpl.
  - by rewrite E.
  - rewrite PyDictFacts.get_setitem_eq. simpl.
    by rewrite PyDictFacts.setitem_setitem.
Qed.

Lemma load_loop_parsed ds : forall st ms,
  parse_records ds = Ok ms -> load_loop st ds = (indexed_all st ms, None).
Proof.
  induction ds as [|d ds IH]; intros st ms; simpl.
  - by intros [= <-].
  - unfold load_step. destruct (CodeMapping_init d) as [m|x]; simpl; [|done].
    destruct (parse_records ds) as [ms'|x]; simpl; [|done].
    intros [= <-]. rewrite index_mapping_indexed.
    exact (IH (indexed st m) ms' eq_refl).
Qed.

Lemma load_loop_Ok ds : forall st e,
  load_loop st ds = (e, None) ->
  exists ms, parse_records ds = Ok ms /\ e = indexed_all st ms.
Proof.
  induction ds as [|d ds IH]; intros st e; simpl.
  - intros [= <-]. by exists [].
  - unfold load_step. destruct (CodeMapping_init d) as [m|x]; simpl; [|done].
    rewrite index_mapping_indexed.
    intros (ms & Hp & ->)%IH. exists (m :: ms). by rewrite Hp.
Qed.

(** The first failing record decides the exception of the loop. *)
Lemma load_loop_Raise ds : forall st x,
  parse_records ds = Raise x -> (load_loop st ds).2 = Some x.
Proof.
  induction ds as [|d ds IH]; intros st x; simpl; [done|].
  unfold load_step. destruct (CodeMapping_init d) as [m|y]; simpl;
    [|by intros [= ->]].
  rewrite index_mapping_indexed.
  destruct (parse_records ds) as [ms'|y] eqn:E; simpl; [done|].
  intros [= <-]. by apply IH.
Qed.

Lemma init_Ok data e :
  MappingEngine_init (Some data) = Ok e -> e = loaded_state data.
Proof.
  unfold MappingEngine_init, _load_mappings, loaded_state, dataset_records.
  destruct (load_loop _ _) as [self [x|]] eqn:E; [done|].
  apply load_loop_Ok in E as (ms & -> & ->). by intros [= <-].
Qed.

Lemma indexed_all_snoc st ms m :
  indexed_all st (ms ++ [m]) = indexed (indexed_all st ms) m.
Proof. unfold indexed_all. by rewrite fold_left_app. Qed.

Lemma indexed_all_metadata ms : forall st,
  metadata (indexed_all st ms) = metadata st.
Proof.
  induction ms as [|m ms IH]; intros st; simpl; [done|]. by rewrite IH.
Qed.

(** ** First occurrences *)

Lemma elem_of_first_occurrences l x : x ∈ first_occurrences l <-> x ∈ l.
Proof.
  induction l as [|a l IH]; simpl; [done|].
  rewrite !elem_of_cons, list_elem_of_filter, IH.
  destruct (decide (x = a)); tauto.
Qed.

Lemma NoDup_first_occurrences l : NoDup (first_occurrences l).
Proof.
  induction l as [|a l IH]; simpl; [constructor|].
  apply NoDup_cons. split.
  - rewrite list_elem_of_filter. tauto.
  - by apply NoDup_filter.
Qed.

Lemma first_occurrences_snoc l x :
  first_occurrences (l ++ [x]) =
  if decide (x ∈ l) then first_occurrences l
  else (first_occurrences l ++ [x])%list.
Proof.
  induction l as [|a l IH]; simpl.
  - destruct (decide (x ∈ [])) as [H|_]; [by apply elem_of_nil in H|done].
  - rewrite IH.
    destruct (decide (x ∈ l)) as [Hin|Hnin];
      destruct (decide (x ∈ a :: l)) as [Hin'|Hnin']; try done.
    + exfalso. apply Hnin'. apply elem_of_cons. by right.
    + apply elem_of_cons in Hin' as [->|?]; [|done].
      rewrite filter_app, filter_cons_False, filter_nil, app_nil_r; [done|].
      by intros H.
    + rewrite filter_app, filter_cons_True, filter_nil; [done|].
      intros ->. apply Hnin'. apply elem_of_cons. by left.
Qed.

Lemma first_occurrences_NoDup l : NoDup l -> first_occurrences l = l.
Proof.
  induction 1 as [|a l Hnin Hnd IH]; simpl; [done|].
  rewrite IH. f_equal. clear IH Hnd.
  induction l as [|b l IHl]; [done|].
  rewrite filter_cons_True.
  - f_equal. apply IHl. intros H. apply Hnin. apply elem_of_cons. by right.
  - intros ->. apply Hnin. apply elem_of_cons. by left.
Qed.

(** ** The two indices after loading *)

Section Indices.

Variable md : Metadata.

Let st0 : MappingEngine := empty_engine md.

(** The forward index holds, for each source code, the last record of the
    dataset that carries it. *)
Lemma forward_get ms k :
  PyDict.get k (mappings (indexed_all st0 ms)) = last (with_source k ms).
Proof.
  induction ms as [|m ms IH] using rev_ind; [done|].
  rewrite indexed_all_snoc. unfold with_source in *. simpl.
  rewrite filter_app. destruct (decide (namaste_code m = k)) as [<-|Hne].
  - rewrite PyDictFacts.get_setitem_eq, filter_cons_True, filter_nil by done.
    by rewrite last_snoc.
  - rewrite PyDictFacts.get_setitem_ne, IH by done.
    by rewrite filter_cons_False, filter_nil, app_nil_r.
Qed.

(** The reverse index holds, for each target code, all the records of the
    dataset that carry it, in dataset order. *)
Lemma reverse_get ms k :
  PyDict.get k (reverse_mappings (indexed_all st0 ms)) =
  match with_target k ms with [] => None | l => Some l end.
Proof.
  induction ms as [|m ms IH] using rev_ind; [done|].
  rewrite indexed_all_snoc. unfold with_target in *. simpl.
  rewrite filter_app. destruct (decide (icd11_code m = k)) as [<-|Hne].
  - rewrite PyDictFacts.get_setitem_eq, IH, filter_cons_True, filter_nil
      by done.
    by destruct (filter _ ms).
  - rewrite PyDictFacts.get_setitem_ne, IH by done.
    by rewrite filter_cons_False, filter_nil, app_nil_r.
Qed.

Lemma forward_keys ms :
  PyDict.keys (mappings (indexed_all st0 ms)) =
  first_occurrences (map namaste_code ms).
Proof.
  induction ms as [|m ms IH] using rev_ind; [done|].
  rewrite indexed_all_snoc, map_app. cbn [map].
  rewrite first_occurrences_snoc. simpl.
  rewrite PyDictFacts.keys_setitem, <- IH.
  destruct (PyDict.mem _ _) eqn:E.
  - apply PyDictFacts.mem_keys in E. rewrite IH in E.
    rewrite elem_of_first_occurrences in E. by rewrite decide_True.
  - rewrite decide_False; [done|]. intros H.
    rewrite <- elem_of_first_occurrences, <- IH in H.
    apply PyDictFacts.mem_keys in H. congruence.
Qed.

Lemma reverse_keys ms :
  PyDict.keys (reverse_mappings (indexed_all st0 ms)) =
  first_occurrences (map icd11_code ms).
Proof.
  induction ms as [|m ms IH] using rev_ind; [done|].
  rewrite indexed_all_snoc, map_app. cbn [map].
  rewrite first_occurrences_snoc. simpl.
  rewrite PyDictFacts.keys_setitem, <- IH.
  destruct (PyDict.mem _ _) eqn:E.
  - apply PyDictFacts.mem_keys in E. rewrite IH in E.
    rewrite elem_of_first_occurrences in E. by rewrite decide_True.
  - rewrite decide_False; [done|]. intros H.
    rewrite <- elem_of_first_occurrences, <- IH in H.
    apply PyDictFacts.mem_keys in H. congruence.
Qed.

End Indices.

(** ** The scenario of the specification *)

Example pandu_records : dataset_records pandu_data = [pandu].
Proof. reflexivity. Qed.

Example pandu_loads :
  MappingEngine_init (Some pandu_data) = Ok (loaded_state pandu_data).
Proof. reflexivity. Qed.

Example pandu_forward :
  translate_code (loaded_state pandu_data) "NAM-1001"
                 namaste_system_uri icd11_system_uri
  = (true, Some pandu, [pandu]).
Proof. reflexivity. Qed.

Example pandu_reverse :
  translate_code (loaded_state pandu_data) "DB64.0"
                 icd11_system_uri namaste_system_uri
  = (true, Some pandu, [pandu]).
Proof. reflexivity. Qed.

Example no_such_code :
  translate_code (loaded_state pandu_data) "NO-SUCH-CODE"
                 namaste_system_uri icd11_system_uri
  = (false, None, []).
Proof. reflexivity. Qed.

(** ** Translation *)

Lemma translate_code_forward self code :
  translate_code self code namaste_system_uri icd11_system_uri =
  match PyDict.get code (mappings self) with
  | Some m => (true, Some m, [m])
  | None => (false, None, [])
  end.
Proof.
  unfold translate_code, translate_namaste_to_icd11.
  rewrite !String.eqb_refl. simpl. by destruct (PyDict.get _ _).
Qed.

Lemma translate_code_reverse self code :
  translate_code self code icd11_system_uri namaste_system_uri =
  match default [] (PyDict.get code (reverse_mappings self)) with
  | [] => (false, None, [])
  | m :: ms => (true, Some m, m :: ms)
  end.
Proof.
  unfold translate_code, translate_icd11_to_namaste.
  replace (String.eqb icd11_system_uri namaste_system_uri) with false
    by reflexivity.
  rewrite !String.eqb_refl. simpl. by destruct (default _ _).
Qed.

(** The first hit of a filter splits the list at the earliest element
    that passes. *)
Lemma filter_first_split {A} (P : A -> Prop) `{!forall x, Decision (P x)}
    (l : list A) x rest :
  filter P l = x :: rest ->
  exists before after,
    l = (before ++ x :: after)%list /\ P x /\ Forall (fun y => ~ P y) before.
Proof.
  induction l as [|a l IH]; [done|].
  destruct (decide (P a)) as [Ha|Ha].
  - rewrite filter_cons_True by done. intros [= -> <-].
    exists [], l. by repeat split.
  - rewrite filter_cons_False by done.
    intros (before & after & -> & Hx & Hb)%IH.
    exists (a :: before), after. repeat split; [done|by constructor].
Qed.

(** The record of a source code that no later record repeats is the one
    the forward index holds. *)
Lemma forward_get_final md before R after :
  Forall (fun m => namaste_code m ≠ namaste_code R) after ->
  PyDict.get (namaste_code R)
    (mappings (indexed_all (empty_engine md)
                 (before ++ R :: after)))
  = Some R.
Proof.
  intros Hafter. rewrite forward_get. unfold with_source.
  rewrite filter_app, filter_cons_True by done.
  replace (filter _ after) with (@nil CodeMapping).
  - by rewrite last_snoc.
  - symmetry. induction Hafter as [|m l Hm _ IH]; [done|].
    by rewrite filter_cons_False.
Qed.

(** C1, as a duplicated source code breaks it: the dataset holds the
    record [pandu], and translating its source code forward answers with
    the later record of the same source code, whose target code, display
    and equivalence are not those of [pandu]. *)
Lemma forward_translation_of_overwritten_record :
  MappingEngine_init (Some duplicate_source_data)
    = Ok (loaded_state duplicate_source_data)
  /\ pandu ∈ dataset_records duplicate_source_data
  /\ translate_code (loaded_state duplicate_source_data) (namaste_code pandu)
       namaste_system_uri icd11_system_uri
     = (true, Some pandu_again, [pandu_again])
  /\ icd11_code pandu_again ≠ icd11_code pandu
  /\ icd11_display pandu_again ≠ icd11_display pandu
  /\ equivalence pandu_again ≠ equivalence pandu.
Proof.
  split; [reflexivity|]. split; [apply elem_of_cons; by left|].
  split; [reflexivity|]. repeat split; discriminate.
Qed.

(** C1 (amended): for every record R of a loaded dataset that no later
    record of the dataset shares its source code with, translating R's
    source code from the traditional-medicine URI to the classification
    URI succeeds and returns R itself as the primary (and only) mapping, so
    that target code, target display and equivalence are exactly R's. *)
Theorem forward_round_trip data e before R after :
  MappingEngine_init (Some data) = Ok e ->
  dataset_records data = (before ++ R :: after)%list ->
  Forall (fun m => namaste_code m ≠ namaste_code R) after ->
  translate_code e (namaste_code R) namaste_system_uri icd11_system_uri
  = (true, Some R, [R]).
Proof.
  intros -> %init_Ok Hrecs Hafter.
  rewrite translate_code_forward. unfold loaded_state.
  by rewrite Hrecs, forward_get_final.
Qed.

Lemma forward_round_trip_witness :
  MappingEngine_init (Some duplicate_source_data)
    = Ok (loaded_state duplicate_source_data)
  /\ dataset_records duplicate_source_data = ([pandu] ++ pandu_again :: [])%list
  /\ Forall (fun m => namaste_code m ≠ namaste_code pandu_again) []
  /\ translate_code (loaded_state duplicate_source_data)
       (namaste_code pandu_again) namaste_system_uri icd11_system_uri
     = (true, Some pandu_again, [pandu_again]).
Proof.
  split; [reflexivity|]. split; [reflexivity|]. split; [constructor|].
  apply (forward_round_trip duplicate_source_data
           (loaded_state duplicate_source_data) [pandu] pandu_again []);
    [reflexivity|reflexivity|constructor].
Defined.

(** With source codes that are pairwise distinct, this is every record. *)
Corollary unique_sources_round_trip data e R :
  MappingEngine_init (Some data) = Ok e ->
  NoDup (map namaste_code (dataset_records data)) ->
  R ∈ dataset_records data ->
  translate_code e (namaste_code R) namaste_system_uri icd11_system_uri
  = (true, Some R, [R]).
Proof.
  intros -> %init_Ok Hnd (before & after & Hrecs)%list_elem_of_split.
  rewrite translate_code_forward. unfold loaded_state.
  rewrite Hrecs, forward_get_final; [done|].
  rewrite Hrecs, map_app in Hnd. apply NoDup_app in Hnd as (_ & _ & Hnd).
  cbn [map] in Hnd. apply NoDup_cons in Hnd as [Hnin _].
  apply Forall_forall. intros m Hm Heq. apply Hnin. rewrite <- Heq.
  by apply (list_elem_of_fmap_2 namaste_code).
Qed.

(** C2: for every record R of a loaded dataset, translating R's target
    code from the classification URI to the traditional-medicine URI
    succeeds; the returned list is the reverse-index list of that target
    code, it contains R (hence an entry with R's source code), and the
    primary result is its first element, which is the earliest record of
    the dataset with that target code. *)
Theorem reverse_round_trip data e R :
  MappingEngine_init (Some data) = Ok e ->
  R ∈ dataset_records data ->
  exists primary others,
    translate_code e (icd11_code R) icd11_system_uri namaste_system_uri
      = (true, Some primary, primary :: others)
    /\ PyDict.get (icd11_code R) (reverse_mappings e) = Some (primary :: others)
    /\ R ∈ primary :: others
    /\ (exists m, m ∈ primary :: others /\ namaste_code m = namaste_code R)
    /\ exists before after,
         dataset_records data = (before ++ primary :: after)%list
         /\ icd11_code primary = icd11_code R
         /\ Forall (fun m => icd11_code m ≠ icd11_code R) before.
Proof.
  intros -> %init_Ok HR.
  assert (Hin : R ∈ with_target (icd11_code R) (dataset_records data)).
  { unfold with_target. by apply list_elem_of_filter. }
  rewrite translate_code_reverse. unfold loaded_state.
  rewrite reverse_get.
  destruct (with_target _ _) as [|primary others] eqn:E;
    [by apply elem_of_nil in Hin|].
  exists primary, others. simpl. repeat split; [done|by exists R|].
  by apply (filter_first_split (fun m => icd11_code m = icd11_code R)) in E.
Qed.

Lemma reverse_round_trip_witness :
  MappingEngine_init (Some shared_target_data)
    = Ok (loaded_state shared_target_data)
  /\ kamala ∈ dataset_records shared_target_data
  /\ exists primary others,
    translate_code (loaded_state shared_target_data) (icd11_code kamala)
        icd11_system_uri namaste_system_uri
      = (true, Some primary, primary :: others)
    /\ PyDict.get (icd11_code kamala)
         (reverse_mappings (loaded_state shared_target_data))
       = Some (primary :: others)
    /\ kamala ∈ primary :: others
    /\ (exists m,
          m ∈ primary :: others /\ namaste_code m = namaste_code kamala)
    /\ exists before after,
         dataset_records shared_target_data = (before ++ primary :: after)%list
         /\ icd11_code primary = icd11_code kamala
         /\ Forall (fun m => icd11_code m ≠ icd11_code kamala) before.
Proof.
  assert (Hin : kamala ∈ dataset_records shared_target_data).
  { apply elem_of_cons. right. apply elem_of_cons. by left. }
  split; [reflexivity|]. split; [exact Hin|].
  exact (reverse_round_trip shared_target_data
           (loaded_state shared_target_data) kamala eq_refl Hin).
Defined.

(** C3: for every code and every pair of system URIs other than the two
    supported pairs, [translate_code] returns the not-found result (false,
    no primary mapping, empty list); a code absent from the index of a
    supported direction gives the same result. *)
Theorem unsupported_direction self code source_system target_system :
  (source_system, target_system) ≠ (namaste_system_uri, icd11_system_uri) ->
  (source_system, target_system) ≠ (icd11_system_uri, namaste_system_uri) ->
  translate_code self code source_system target_system = (false, None, [])
  /\ (forall c, PyDict.get c (mappings self) = None ->
        translate_code self c namaste_system_uri icd11_system_uri
        = translate_code self code source_system target_system)
  /\ (forall c, PyDict.get c (reverse_mappings self) = None ->
        translate_code self c icd11_system_uri namaste_system_uri
        = translate_code self code source_system target_system).
Proof.
  intros H1 H2.
  assert (Hu : translate_code self code source_system target_system
               = (false, None, [])).
  { unfold translate_code.
    destruct (String.eqb_spec source_system namaste_system_uri) as [Ha|Ha];
      destruct (String.eqb_spec target_system icd11_system_uri) as [Hb|Hb];
      destruct (String.eqb_spec source_system icd11_system_uri) as [Hc|Hc];
      destruct (String.eqb_spec target_system namaste_system_uri) as [Hd|Hd];
      simpl; try done; exfalso; (apply H1 + apply H2); congruence. }
  rewrite Hu. split; [done|]. split; intros c Hc.
  - by rewrite translate_code_forward, Hc.
  - by rewrite translate_code_reverse, Hc.
Qed.

Lemma unsupported_direction_witness :
  ("http://snomed.info/sct", icd11_system_uri)
    ≠ (namaste_system_uri, icd11_system_uri)
  /\ ("http://snomed.info/sct", icd11_system_uri)
    ≠ (icd11_system_uri, namaste_system_uri)
  /\ translate_code (loaded_state pandu_data) "NAM-1001"
       "http://snomed.info/sct" icd11_system_uri = (false, None, []).
Proof.
  assert (H1 : ("http://snomed.info/sct", icd11_system_uri)
               ≠ (namaste_system_uri, icd11_system_uri)) by discriminate.
  assert (H2 : ("http://snomed.info/sct", icd11_system_uri)
               ≠ (icd11_system_uri, namaste_system_uri)) by discriminate.
  split; [exact H1|]. split; [exact H2|].
  exact (proj1 (unsupported_direction (loaded_state pandu_data) "NAM-1001"
                  "http://snomed.info/sct" icd11_system_uri H1 H2)).
Defined.

(** ** Load-time failures *)

Ltac lookup_cases d :=
  unfold CodeMapping_init, data_getitem, EquivalenceEnum_call;
  destruct (d !! "namaste_code") eqn:?; simpl;
  [destruct (d !! "namaste_display") eqn:?; simpl;
   [destruct (d !! "namaste_system") eqn:?; simpl;
    [destruct (d !! "icd11_code") eqn:?; simpl;
     [destruct (d !! "icd11_display") eqn:?; simpl;
      [destruct (d !! "equivalence") as [v|] eqn:?; simpl;
       [destruct (EquivalenceEnum_lookup v) eqn:?; simpl|]|]|]|]|]|].

Lemma required_field_cases f :
  f ∈ required_fields ->
  f = "namaste_code" \/ f = "namaste_display" \/ f = "namaste_system"
  \/ f = "icd11_code" \/ f = "icd11_display" \/ f = "equivalence".
Proof.
  unfold required_fields. rewrite !elem_of_cons, elem_of_nil. tauto.
Qed.

Lemma CodeMapping_init_Raise d x :
  CodeMapping_init d = Raise x -> describes d x.
Proof.
  lookup_cases d; intros [= <-]; simpl; split; try done;
    unfold required_fields; rewrite !elem_of_cons; tauto.
Qed.

Lemma CodeMapping_init_Ok d m : CodeMapping_init d = Ok m -> ~ malformed d.
Proof.
  lookup_cases d; intros [= <-].
  intros [(f & Hf & Hnone)|(v' & Hv & Hnone)].
  - apply required_field_cases in Hf.
    destruct Hf as [ -> | [ -> | [ -> | [ -> | [ -> | -> ]]]]]; congruence.
  - congruence.
Qed.

Lemma parse_records_malformed ds :
  (exists d, d ∈ ds /\ malformed d) ->
  exists x bad,
    parse_records ds = Raise x
    /\ bad ∈ ds /\ malformed bad /\ describes bad x.
Proof.
  induction ds as [|d ds IH]; intros (d0 & Hin & Hbad).
  - by apply elem_of_nil in Hin.
  - simpl. destruct (CodeMapping_init d) as [m|x] eqn:E; simpl.
    + apply CodeMapping_init_Ok in E.
      apply elem_of_cons in Hin as [->|Hin]; [done|].
      destruct IH as (x & bad & -> & Hb & Hm & Hd); [by exists d0|].
      exists x, bad. repeat split; try done. apply elem_of_cons. by right.
    + exists x, d. pose proof (CodeMapping_init_Raise _ _ E) as Hd.
      repeat split; [apply elem_of_cons; by left| |done].
      destruct x as [f|v|]; simpl in Hd;
        [left; by exists f|right; by exists v|done].
Qed.

(** C4, as an unknown system tag breaks it: a dataset whose record carries
    a tag that [validate_mapping] rejects is loaded without any error.
    Moreover the exception of a failing load is the same whether the
    offending record is the first or the second of the dataset, so it does
    not name the record. *)
Lemma unknown_system_tag_is_loaded :
  recognized_system (namaste_system homeopathy) = false
  /\ validate_mapping homeopathy = ["Invalid traditional medicine system"]
  /\ MappingEngine_init (Some unknown_system_data)
     = Ok (loaded_state unknown_system_data)
  /\ PyDict.values (mappings (loaded_state unknown_system_data)) = [homeopathy]
  /\ MappingEngine_init (Some bad_first_data) = Raise (KeyError "icd11_code")
  /\ MappingEngine_init (Some bad_second_data) = Raise (KeyError "icd11_code").
Proof. repeat split; reflexivity. Qed.

(** The loop has indexed the good first record when the second one fails;
    the constructor drops that state. *)
Example half_loaded_state_is_dropped :
  _load_mappings engine_initial (Some bad_second_data)
    = (loaded_state pandu_data, Some (KeyError "icd11_code"))
  /\ mappings (loaded_state pandu_data) = [("NAM-1001", pandu)]
  /\ get_mapping_engine None (Some bad_second_data)
     = (None, Raise (KeyError "icd11_code")).
Proof. repeat split; reflexivity. Qed.

(** C4 (amended): for every dataset containing a record with a missing
    required field or an unrecognized equivalence value, constructing the
    engine raises an exception and yields no engine, and the singleton
    stays unset; the exception is a [KeyError] carrying the name of a
    missing required field, or a [ValueError] carrying the unrecognized
    equivalence value, of an offending record of the dataset. The system
    tag is not checked at load time. *)
Theorem malformed_record_aborts_load data d :
  d ∈ default [] (ds_mappings data) ->
  malformed d ->
  exists x bad,
    MappingEngine_init (Some data) = Raise x
    /\ get_mapping_engine None (Some data) = (None, Raise x)
    /\ bad ∈ default [] (ds_mappings data)
    /\ malformed bad
    /\ describes bad x.
Proof.
  intros Hin Hbad.
  destruct (parse_records_malformed (default [] (ds_mappings data)))
    as (x & bad & Hp & Hb & Hm & Hd); [by exists d|].
  exists x, bad.
  assert (Hinit : MappingEngine_init (Some data) = Raise x).
  { unfold MappingEngine_init, _load_mappings.
    pose proof (load_loop_Raise _ (mkEngine (mappings engine_initial)
                  (reverse_mappings engine_initial)
                  (default ∅ (ds_metadata data))) _ Hp) as Hx.
    destruct (load_loop _ _) as [self o]. simpl in Hx. by subst o. }
  unfold get_mapping_engine. by rewrite Hinit.
Qed.

Lemma no_target_raw_malformed : malformed no_target_raw.
Proof. left. exists "icd11_code". split; [|reflexivity].
  unfold required_fields. rewrite !elem_of_cons. tauto.
Defined.

Lemma malformed_record_aborts_load_witness :
  no_target_raw ∈ default [] (ds_mappings bad_second_data)
  /\ malformed no_target_raw
  /\ exists x bad,
    MappingEngine_init (Some bad_second_data) = Raise x
    /\ get_mapping_engine None (Some bad_second_data) = (None, Raise x)
    /\ bad ∈ default [] (ds_mappings bad_second_data)
    /\ malformed bad
    /\ describes bad x.
Proof.
  assert (Hin : no_target_raw ∈ default [] (ds_mappings bad_second_data)).
  { apply elem_of_cons. right. apply elem_of_cons. by left. }
  split; [exact Hin|]. split; [exact no_target_raw_malformed|].
  exact (malformed_record_aborts_load bad_second_data no_target_raw Hin
           no_target_raw_malformed).
Defined.

(** Conversely, a dataset without malformed records always loads. *)
Lemma wellformed_dataset_loads data :
  Forall (fun d => ~ malformed d) (default [] (ds_mappings data)) ->
  MappingEngine_init (Some data) = Ok (loaded_state data).
Proof.
  intros Hall. unfold MappingEngine_init, _load_mappings, loaded_state,
    dataset_records.
  assert (Hp : exists ms,
             parse_records (default [] (ds_mappings data)) = Ok ms).
  { induction Hall as [|d ds Hd _ [ms IH]]; [by exists []|].
    simpl. destruct (CodeMapping_init d) as [m|x] eqn:E.
    - exists (m :: ms). simpl. by rewrite IH.
    - exfalso. apply Hd. apply CodeMapping_init_Raise in E.
      destruct x as [f|v|]; simpl in E;
        [left; by exists f|right; by exists v|done]. }
  destruct Hp as [ms Hp]. rewrite Hp.
  by rewrite (load_loop_parsed _ _ _ Hp).
Qed.

(** ** Search on ASCII text *)

Lemma getattr_ascii m f v :
  ascii_record m = true -> getattr m f = Some v -> PyStr.is_ascii v = true.
Proof.
  unfold ascii_record. rewrite !andb_true_iff.
  intros [[[[[H1 H2] H3] H4] H5] H6].
  destruct f; simpl; intros Hv; try by injection Hv as <-.
  - injection Hv as <-. by destruct (equivalence m).
  - by rewrite Hv in H6.
Qed.

Lemma any_field_hit_ascii str_lower ql m fields :
  PyStr.lower_on_ascii str_lower ->
  ascii_record m = true ->
  any_field_hit str_lower ql m fields
  = any_field_hit PyStr.ascii_lower ql m fields.
Proof.
  intros Hlow Hm. induction fields as [|f fs IH]; simpl; [done|].
  rewrite IH. unfold field_hit.
  destruct (getattr m f) as [v|] eqn:Ev; [|done].
  by rewrite (Hlow _ (getattr_ascii _ _ _ Hm Ev)).
Qed.

(** On an index of ASCII records and for an ASCII query, the search sees
    [str.lower] only where it is [ascii_lower]. *)
Lemma search_mappings_ascii str_lower self query search_fields :
  PyStr.lower_on_ascii str_lower ->
  PyStr.is_ascii query = true ->
  Forall (fun m => ascii_record m = true) (PyDict.values (mappings self)) ->
  search_mappings str_lower self query search_fields
  = search_mappings PyStr.ascii_lower self query search_fields.
Proof.
  intros Hlow Hq Hall. unfold search_mappings. rewrite (Hlow _ Hq).
  induction Hall as [|m ms Hm _ IH]; simpl; [done|].
  by rewrite IH, (any_field_hit_ascii _ _ _ _ Hlow Hm).
Qed.

(** ** Search order *)

Lemma search_loop_filter str_lower ql fields ms :
  search_loop str_lower ql fields ms
  = List.filter (fun m => any_field_hit str_lower ql m fields) ms.
Proof.
  induction ms as [|m ms IH]; simpl; [done|].
  by destruct (any_field_hit str_lower ql m fields); rewrite IH.
Qed.

Lemma Forall_setitem {V} (P : string * V -> Prop) k v (d : PyDict.t V) :
  P (k, v) -> Forall P d -> Forall P (PyDict.setitem k v d).
Proof.
  intros Hkv. induction 1 as [|[k0 v0] d H0 Hd IH]; simpl.
  - by repeat constructor.
  - destruct (String.eqb_spec k k0) as [->|Hne]; by constructor.
Qed.

(** Every forward entry sits under its own source code. *)
Lemma forward_entries_keyed md ms :
  Forall (fun kv => namaste_code kv.2 = kv.1)
    (mappings (indexed_all (empty_engine md) ms)).
Proof.
  induction ms as [|m ms IH] using rev_ind; [constructor|].
  rewrite indexed_all_snoc. simpl. by apply Forall_setitem.
Qed.

Lemma forward_values_codes md ms :
  map namaste_code
    (PyDict.values (mappings (indexed_all (empty_engine md) ms)))
  = first_occurrences (map namaste_code ms).
Proof.
  rewrite <- (forward_keys md). unfold PyDict.values, PyDict.keys.
  rewrite map_map. apply map_ext_Forall. apply forward_entries_keyed.
Qed.

(** C5, as the code breaks it: the two records of [unsorted_data] both
    match the query, and the search returns them in file order, which is
    not the ascending order of their source codes. *)
Lemma search_follows_file_order :
  MappingEngine_init (Some unsorted_data) = Ok (loaded_state unsorted_data)
  /\ forall str_lower,
       PyStr.lower_on_ascii str_lower ->
       search_mappings str_lower (loaded_state unsorted_data) "diabetes" None
         = [madhumeha; prameha]
       /\ ascending (map namaste_code
            (search_mappings str_lower (loaded_state unsorted_data)
               "diabetes" None)) = false.
Proof.
  split; [reflexivity|]. intros str_lower Hlow.
  rewrite (search_mappings_ascii str_lower (loaded_state unsorted_data)
             "diabetes" None Hlow eq_refl);
    [by split|]. by repeat constructor.
Qed.

(** C5 (amended): for every loaded dataset and every query,
    [search_mappings] returns the matching records of the forward index in
    the insertion order of that index, that is, in the order in which
    their source codes first occur in the dataset. *)
Theorem search_in_insertion_order str_lower data e query search_fields :
  MappingEngine_init (Some data) = Ok e ->
  search_mappings str_lower e query search_fields
  = List.filter
      (fun m => any_field_hit str_lower (str_lower query) m
                  (default default_search_fields search_fields))
      (PyDict.values (mappings e))
  /\ map namaste_code (PyDict.values (mappings e))
     = first_occurrences (map namaste_code (dataset_records data)).
Proof.
  intros -> %init_Ok. split.
  - unfold search_mappings. apply search_loop_filter.
  - apply forward_values_codes.
Qed.

Lemma search_in_insertion_order_witness :
  MappingEngine_init (Some unsorted_data) = Ok (loaded_state unsorted_data)
  /\ search_mappings PyStr.ascii_lower (loaded_state unsorted_data)
       "DIABETES" None
     = List.filter
         (fun m => any_field_hit PyStr.ascii_lower
                     (PyStr.ascii_lower "DIABETES") m
                     (default default_search_fields None))
         (PyDict.values (mappings (loaded_state unsorted_data)))
  /\ map namaste_code (PyDict.values (mappings (loaded_state unsorted_data)))
     = first_occurrences (map namaste_code (dataset_records unsorted_data)).
Proof.
  split; [reflexivity|].
  exact (search_in_insertion_order PyStr.ascii_lower unsorted_data
           (loaded_state unsorted_data) "DIABETES" None eq_refl).
Defined.

(** ** Statistics *)

Lemma sum_values_setitem k v (d : PyDict.t nat) :
  sum_values (PyDict.setitem k v d) + default 0 (PyDict.get k d)
  = sum_values d + v.
Proof.
  unfold sum_values, PyDict.values.
  induction d as [|[k0 v0] d IH]; simpl; [lia|].
  destruct (String.eqb_spec k k0) as [->|Hne]; simpl; lia.
Qed.

Lemma sum_values_bump k (d : PyDict.t nat) :
  sum_values (bump k d) = S (sum_values d).
Proof.
  unfold bump.
  pose proof (sum_values_setitem k (default 0 (PyDict.get k d) + 1) d). lia.
Qed.

Lemma count_loop_sums ms : forall sc ec,
  sum_values (count_loop sc ec ms).1 = sum_values sc + length ms
  /\ sum_values (count_loop sc ec ms).2 = sum_values ec + length ms.
Proof.
  induction ms as [|m ms IH]; intros sc ec; simpl; [lia|].
  destruct (IH (bump (namaste_system m) sc)
               (bump (EquivalenceEnum_value (equivalence m)) ec)) as [H1 H2].
  rewrite H1, H2, !sum_values_bump. lia.
Qed.

(** The two sums agree with the total on every engine state. *)
Lemma statistics_sums self :
  sum_values (by_traditional_system (get_statistics self))
    = total_mappings (get_statistics self)
  /\ sum_values (by_equivalence (get_statistics self))
    = total_mappings (get_statistics self).
Proof.
  unfold get_statistics.
  pose proof (count_loop_sums (PyDict.values (mappings self))
                PyDict.empty PyDict.empty) as [H1 H2].
  destruct (count_loop _ _ _) as [sc ec]. simpl in *.
  unfold PyDict.values in *. rewrite length_map in H1, H2.
  by rewrite H1, H2.
Qed.

(** C6: for every loaded dataset, the per-system counts and the
    per-equivalence counts of the statistics each sum to
    [total_mappings]. *)
Theorem statistics_counts_sum_to_total file e :
  MappingEngine_init file = Ok e ->
  sum_values (by_traditional_system (get_statistics e))
    = total_mappings (get_statistics e)
  /\ sum_values (by_equivalence (get_statistics e))
    = total_mappings (get_statistics e).
Proof. intros _. apply statistics_sums. Qed.

Lemma statistics_counts_sum_to_total_witness :
  MappingEngine_init (Some shared_target_data)
    = Ok (loaded_state shared_target_data)
  /\ sum_values (by_traditional_system
                   (get_statistics (loaded_state shared_target_data)))
     = total_mappings (get_statistics (loaded_state shared_target_data))
  /\ sum_values (by_equivalence
                   (get_statistics (loaded_state shared_target_data)))
     = total_mappings (get_statistics (loaded_state shared_target_data)).
Proof.
  split; [reflexivity|].
  exact (statistics_counts_sum_to_total (Some shared_target_data)
           (loaded_state shared_target_data) eq_refl).
Defined.

Example shared_target_statistics :
  let s := get_statistics (loaded_state shared_target_data) in
  total_mappings s = 2
  /\ by_traditional_system s = [("Ayurveda", 2)]
  /\ by_equivalence s = [("equivalent", 1); ("wider", 1)]
  /\ reverse_mappings_count s = 1.
Proof. repeat split; reflexivity. Qed.

(** ** Reverse concept grouping *)

Lemma reverse_group_loop_spec items : forall processed out,
  NoDup (map fst items) ->
  Forall (fun item => (item.1 ∉ processed) /\ (item.2 ≠ [])) items ->
  reverse_group_loop processed out items
  = Ok ((out ++ map group_entry items)%list).
Proof.
  induction items as [|[icd ms] items IH]; intros processed out Hnd Hall;
    simpl.
  - by rewrite app_nil_r.
  - apply NoDup_cons in Hnd as [Hnin Hnd].
    apply Forall_cons in Hall as [[Hfresh Hne] Hall]. simpl in *.
    rewrite bool_decide_eq_true_2 by done.
    destruct ms as [|m ms]; [done|]. simpl.
    rewrite IH; [by rewrite <- app_assoc|done|].
    rewrite Forall_forall in Hall |- *. intros [k l] Hin.
    destruct (Hall _ Hin) as [Hk Hl]. split; [|done]. simpl in *.
    rewrite elem_of_union, elem_of_singleton. intros [->|?]; [|done].
    apply Hnin. by apply (list_elem_of_fmap_2 fst) in Hin.
Qed.

Lemma get_mappings_for_concept_map_reverse self :
  get_mappings_for_concept_map self icd11_system_uri namaste_system_uri
  = reverse_group_loop ∅ [] (PyDict.items (reverse_mappings self)).
Proof. reflexivity. Qed.

(** Every item of the loaded reverse index holds the records of its key. *)
Lemma reverse_items md ms k l :
  (k, l) ∈ PyDict.items
    (reverse_mappings (indexed_all (empty_engine md) ms)) ->
  l = with_target k ms /\ l ≠ [].
Proof.
  intros Hin. apply PyDictFacts.items_get_NoDup in Hin.
  - rewrite reverse_get in Hin.
    destruct (with_target k ms); [done|]. by injection Hin as <-.
  - rewrite reverse_keys. apply NoDup_first_occurrences.
Qed.

(** C7: for every loaded dataset, the reverse concept grouping succeeds
    and has exactly one element per distinct key of the reverse index (the
    distinct target codes, in order of first occurrence); the targets of
    an element are all the records of the dataset with that target code,
    in dataset order (so two records with one target code give one element
    with two targets), and its display is the target display of the first
    of them. *)
Theorem reverse_grouping data e :
  MappingEngine_init (Some data) = Ok e ->
  exists elements,
    get_mappings_for_concept_map e icd11_system_uri namaste_system_uri
      = Ok elements
    /\ map ConceptEntry.source_code elements
       = PyDict.keys (reverse_mappings e)
    /\ map ConceptEntry.source_code elements
       = first_occurrences (map icd11_code (dataset_records data))
    /\ NoDup (map ConceptEntry.source_code elements)
    /\ forall g, g ∈ elements ->
         ConceptEntry.targets g
           = map reverse_target
               (with_target (ConceptEntry.source_code g) (dataset_records data))
         /\ length (ConceptEntry.targets g)
            = length (with_target (ConceptEntry.source_code g)
                                  (dataset_records data))
         /\ exists first others,
              PyDict.get (ConceptEntry.source_code g) (reverse_mappings e)
                = Some (first :: others)
              /\ ConceptEntry.source_display g = icd11_display first.
Proof.
  intros -> %init_Ok. unfold loaded_state.
  set (md := default ∅ (ds_metadata data)).
  set (ms := dataset_records data).
  set (e := indexed_all (empty_engine md) ms).
  assert (Hkeys : PyDict.keys (reverse_mappings e)
                  = first_occurrences (map icd11_code ms))
    by apply reverse_keys.
  exists (map group_entry (PyDict.items (reverse_mappings e))).
  split; [|split; [|split; [|split]]].
  - rewrite get_mappings_for_concept_map_reverse.
    rewrite reverse_group_loop_spec; [done| |].
    + change (NoDup (PyDict.keys (reverse_mappings e))). rewrite Hkeys.
      apply NoDup_first_occurrences.
    + apply Forall_forall. intros [k l] Hin. split; [apply not_elem_of_empty|].
      by apply reverse_items in Hin as [_ ?].
  - unfold PyDict.keys, PyDict.items. by rewrite map_map.
  - rewrite <- Hkeys. unfold PyDict.keys, PyDict.items. by rewrite map_map.
  - unfold PyDict.items. rewrite map_map. simpl.
    change (NoDup (PyDict.keys (reverse_mappings e))). rewrite Hkeys.
    apply NoDup_first_occurrences.
  - intros g (item & -> & Hin)%list_elem_of_fmap. destruct item as [k l].
    pose proof (PyDictFacts.items_get_NoDup (reverse_mappings e) k l) as Hget.
    rewrite Hkeys in Hget. specialize (Hget (NoDup_first_occurrences _) Hin).
    apply reverse_items in Hin as [-> Hne]. simpl.
    split; [done|]. split; [by rewrite length_map|].
    destruct (with_target k ms) as [|first others] eqn:E; [done|].
    by exists first, others.
Qed.

Lemma reverse_grouping_witness :
  MappingEngine_init (Some shared_target_data)
    = Ok (loaded_state shared_target_data)
  /\ get_mappings_for_concept_map (loaded_state shared_target_data)
       icd11_system_uri namaste_system_uri
     = Ok [ConceptEntry.mk "DB64.0" "Iron deficiency anaemia"
             [ConceptTarget.mk "NAM-1001" "Pandu" "equivalent";
              ConceptTarget.mk "NAM-1002" "Kamala" "wider"]]
  /\ exists elements,
    get_mappings_for_concept_map (loaded_state shared_target_data)
        icd11_system_uri namaste_system_uri
      = Ok elements
    /\ map ConceptEntry.source_code elements
       = PyDict.keys (reverse_mappings (loaded_state shared_target_data))
    /\ map ConceptEntry.source_code elements
       = first_occurrences
           (map icd11_code (dataset_records shared_target_data))
    /\ NoDup (map ConceptEntry.source_code elements)
    /\ forall g, g ∈ elements ->
         ConceptEntry.targets g
           = map reverse_target
               (with_target (ConceptEntry.source_code g)
                  (dataset_records shared_target_data))
         /\ length (ConceptEntry.targets g)
            = length (with_target (ConceptEntry.source_code g)
                                  (dataset_records shared_target_data))
         /\ exists first others,
              PyDict.get (ConceptEntry.source_code g)
                (reverse_mappings (loaded_state shared_target_data))
                = Some (first :: others)
              /\ ConceptEntry.source_display g = icd11_display first.
Proof.
  split; [reflexivity|]. split; [reflexivity|].
  exact (reverse_grouping shared_target_data
           (loaded_state shared_target_data) eq_refl).
Defined.

(** ** Strings: lower-casing and containment *)

Lemma same_letter_lower a b :
  PyStr.same_letter a b = true ->
  PyStr.ascii_lower_char a = PyStr.ascii_lower_char b.
Proof.
  unfold PyStr.same_letter, PyStr.ascii_lower_char, PyStr.is_upper.
  rewrite !orb_true_iff, !andb_true_iff, Ascii.eqb_eq.
  rewrite !Nat.leb_le, !Nat.eqb_eq.
  intros [[->|[[Ha1 Ha2] Hb]]|[[Hb1 Hb2] Ha]]; [done| |].
  - rewrite (proj2 (andb_true_iff _ _)
               (conj (proj2 (Nat.leb_le _ _) Ha1)
                     (proj2 (Nat.leb_le _ _) Ha2))).
    replace ((65 <=? nat_of_ascii b)%nat && (nat_of_ascii b <=? 90)%nat)
      with false.
    + by rewrite <- Hb, ascii_nat_embedding.
    + symmetry. apply andb_false_iff. right. apply Nat.leb_gt. lia.
  - rewrite (proj2 (andb_true_iff _ _)
               (conj (proj2 (Nat.leb_le _ _) Hb1)
                     (proj2 (Nat.leb_le _ _) Hb2))).
    replace ((65 <=? nat_of_ascii a)%nat && (nat_of_ascii a <=? 90)%nat)
      with false.
    + by rewrite <- Ha, ascii_nat_embedding.
    + symmetry. apply andb_false_iff. right. apply Nat.leb_gt. lia.
Qed.

(** Case variants have the same ASCII lower-casing. *)
Lemma case_variant_lower s : forall t,
  PyStr.case_variant s t = true -> PyStr.ascii_lower s = PyStr.ascii_lower t.
Proof.
  induction s as [|a s IH]; intros [|b t]; simpl; try done.
  intros [Hab Hst]%andb_true_iff.
  by rewrite (same_letter_lower _ _ Hab), (IH _ Hst).
Qed.

Lemma startswith_refl s : PyStr.startswith s s = true.
Proof.
  induction s as [|a s IH]; simpl; [done|]. by rewrite Ascii.eqb_refl.
Qed.

Lemma contains_refl s : PyStr.contains s s = true.
Proof.
  destruct s; simpl; [done|]. by rewrite Ascii.eqb_refl, startswith_refl.
Qed.

Lemma startswith_spec p : forall t,
  PyStr.startswith p t = true <-> exists b, t = p +:+ b.
Proof.
  induction p as [|a p IH]; intros t; simpl.
  - split; [by exists t|done].
  - destruct t as [|c t].
    + split; [done|]. by intros [b [=]].
    + rewrite andb_true_iff, Ascii.eqb_eq, IH. split.
      * intros [-> [b ->]]. by exists b.
      * intros [b [= -> ->]]. split; [done|by exists b].
Qed.

(** [contains p t] holds exactly when [p] is a contiguous part of [t]. *)
Lemma contains_spec p t :
  PyStr.contains p t = true <-> exists a b, t = a +:+ p +:+ b.
Proof.
  induction t as [|c t IH]; simpl.
  - rewrite orb_false_r, startswith_spec. split.
    + intros [b Hb]. by exists EmptyString, b.
    + intros (a & b & H). destruct a; [by exists b|done].
  - rewrite orb_true_iff, IH, startswith_spec. split.
    + intros [[b Hb]|(a & b & ->)].
      * by exists EmptyString, b.
      * by exists (String c a), b.
    + intros (a & b & H). destruct a as [|c' a]; simpl in H.
      * left. by exists b.
      * right. injection H as -> ->. by exists a, b.
Qed.

(** ** Search matching *)

Lemma field_hit_spec str_lower ql m f :
  field_hit str_lower ql m f = true <->
  exists v,
    getattr m f = Some v /\ v ≠ EmptyString
    /\ PyStr.contains ql (str_lower v) = true.
Proof.
  unfold field_hit. destruct (getattr m f) as [v|].
  - rewrite andb_true_iff. split.
    + intros [Ht Hc]. exists v. by destruct v.
    + intros (v' & [= <-] & Hne & Hc). by destruct v.
  - split; [done|]. by intros (v & ? & _).
Qed.

Lemma any_field_hit_spec str_lower ql m fields :
  any_field_hit str_lower ql m fields = true <->
  exists f, f ∈ fields /\ field_hit str_lower ql m f = true.
Proof.
  induction fields as [|f fs IH]; simpl.
  - split; [done|]. by intros (f & ?%elem_of_nil & _).
  - destruct (field_hit str_lower ql m f) eqn:E.
    + split; [|done]. intros _. exists f. split; [|done].
      apply elem_of_cons. by left.
    + rewrite IH. split.
      * intros (f' & Hin & Hhit). exists f'. split; [|done].
        apply elem_of_cons. by right.
      * intros (f' & [->|Hin]%elem_of_cons & Hhit); [congruence|].
        by exists f'.
Qed.

(** The records found, for any list of fields. *)
Lemma search_mappings_spec str_lower self query search_fields m :
  m ∈ search_mappings str_lower self query search_fields <->
  m ∈ PyDict.values (mappings self)
  /\ exists f v,
       f ∈ default default_search_fields search_fields
       /\ getattr m f = Some v /\ v ≠ EmptyString
       /\ PyStr.contains (str_lower query) (str_lower v) = true.
Proof.
  unfold search_mappings. rewrite search_loop_filter.
  rewrite !list_elem_of_In, filter_In, any_field_hit_spec.
  split.
  - intros [Hin (f & Hf & (v & Hv)%field_hit_spec)]. split; [done|].
    by exists f, v.
  - intros [Hin (f & v & Hf & Hv)]. split; [done|]. exists f.
    split; [done|]. apply field_hit_spec. by exists v.
Qed.

(** The query enters the search through its lower-casing only. *)
Lemma search_mappings_case str_lower self q q' search_fields :
  str_lower q = str_lower q' ->
  search_mappings str_lower self q search_fields
  = search_mappings str_lower self q' search_fields.
Proof. unfold search_mappings. by intros ->. Qed.

(** C8, as the code breaks it: the record [blank] is in the index and,
    whatever [str.lower] is, the lower-cased empty query is a substring
    of its lower-cased (empty) source display, yet the search for the
    empty query does not return it, because an empty field value is
    skipped. *)
Lemma empty_field_never_matches :
  MappingEngine_init (Some blank_data) = Ok (loaded_state blank_data)
  /\ blank ∈ PyDict.values (mappings (loaded_state blank_data))
  /\ getattr blank field_namaste_display = Some (namaste_display blank)
  /\ namaste_display blank = EmptyString
  /\ forall str_lower,
       PyStr.contains (str_lower EmptyString)
                      (str_lower (namaste_display blank)) = true
       /\ search_mappings str_lower (loaded_state blank_data) EmptyString
            None = [].
Proof.
  split; [reflexivity|]. split; [apply elem_of_cons; by left|].
  split; [reflexivity|]. split; [reflexivity|].
  intros str_lower. split; [apply contains_refl|reflexivity].
Qed.

(** C8 (amended): search is case-insensitive as far as [str.lower] is:
    for every loaded dataset, two queries with the same lower-casing
    return identical result sequences, and so do an ASCII query and any
    ASCII case variant of it (such as DIABETES and diabetes); and a record
    of the index is returned iff one of the fields sourceDisplay,
    targetDisplay, notes is present and not empty and its lower-cased
    value contains the lower-cased query as a substring. *)
Theorem search_case_insensitive str_lower file e query :
  MappingEngine_init file = Ok e ->
  PyStr.lower_on_ascii str_lower ->
  (forall variant,
     str_lower query = str_lower variant ->
     search_mappings str_lower e query None
     = search_mappings str_lower e variant None)
  /\ (forall variant,
        PyStr.is_ascii query = true -> PyStr.is_ascii variant = true ->
        PyStr.case_variant query variant = true ->
        search_mappings str_lower e query None
        = search_mappings str_lower e variant None)
  /\ forall m,
       m ∈ search_mappings str_lower e query None <->
       m ∈ PyDict.values (mappings e)
       /\ ((namaste_display m ≠ EmptyString
            /\ PyStr.contains (str_lower query)
                 (str_lower (namaste_display m)) = true)
           \/ (icd11_display m ≠ EmptyString
               /\ PyStr.contains (str_lower query)
                    (str_lower (icd11_display m)) = true)
           \/ (exists n, notes m = Some n /\ n ≠ EmptyString
               /\ PyStr.contains (str_lower query) (str_lower n) = true)).
Proof.
  intros _ Hlow. split; [|split].
  - intros variant. apply search_mappings_case.
  - intros variant Hq Hv Hcv. apply search_mappings_case.
    rewrite (Hlow _ Hq), (Hlow _ Hv). by apply case_variant_lower.
  - intros m. rewrite search_mappings_spec. simpl.
    unfold default_search_fields. split; intros [Hin H]; (split; [done|]).
    + destruct H as (f & v & Hf & Hv & Hne & Hc).
      rewrite !elem_of_cons, elem_of_nil in Hf.
      destruct Hf as [ -> | [ -> | [ -> | [] ]]]; simpl in Hv.
      * injection Hv as <-. by left.
      * injection Hv as <-. right. by left.
      * right. right. by exists v.
    + destruct H as [[Hne Hc]|[[Hne Hc]|(n & Hn & Hne & Hc)]].
      * exists field_namaste_display, (namaste_display m).
        rewrite !elem_of_cons. tauto.
      * exists field_icd11_display, (icd11_display m).
        rewrite !elem_of_cons. tauto.
      * exists field_notes, n. rewrite !elem_of_cons. tauto.
Qed.

Lemma ascii_lower_on_ascii : PyStr.lower_on_ascii PyStr.ascii_lower.
Proof. intros s _. reflexivity. Defined.

Lemma search_case_insensitive_witness :
  MappingEngine_init (Some unsorted_data) = Ok (loaded_state unsorted_data)
  /\ PyStr.lower_on_ascii PyStr.ascii_lower
  /\ PyStr.is_ascii "DIABETES" = true
  /\ PyStr.is_ascii "diabetes" = true
  /\ PyStr.case_variant "DIABETES" "diabetes" = true
  /\ search_mappings PyStr.ascii_lower (loaded_state unsorted_data)
       "DIABETES" None
     = search_mappings PyStr.ascii_lower (loaded_state unsorted_data)
         "diabetes" None
  /\ search_mappings PyStr.ascii_lower (loaded_state unsorted_data)
       "DIABETES" None
     = [madhumeha; prameha].
Proof.
  split; [reflexivity|]. split; [exact ascii_lower_on_ascii|].
  split; [reflexivity|]. split; [reflexivity|]. split; [reflexivity|].
  split; [|reflexivity].
  exact (proj1 (proj2 (search_case_insensitive PyStr.ascii_lower
                  (Some unsorted_data) (loaded_state unsorted_data)
                  "DIABETES" eq_refl ascii_lower_on_ascii))
               "diabetes" eq_refl eq_refl eq_refl).
Defined.

(** ** The operation result of a failed translation *)

(** Whatever else is passed, a false result never gets match data from the
    builder. *)
Lemma build_translate_response_false source_code tc td ts eq ai :
  let r := build_translate_response false source_code tc td ts eq ai in
  result_flag r = Some false
  /\ match_parameters r = [] /\ target_codings r = [].
Proof.
  unfold build_translate_response.
  destruct tc as [tc|], ts as [ts|], (opt_truthy ai); by simpl.
Qed.

Example successful_translation_shape str_lower :
  translate_handler str_lower None (Some (loaded_state pandu_data))
    (TranslateRequest.mk "NAM-1001" namaste_system_uri icd11_system_uri None)
  = Response (ParametersResource.mk "Parameters"
      [FhirParameter.mk "result" (Some true) None None;
       FhirParameter.mk "match" None None
         (Some [ParameterPart.mk "equivalence" (Some "equivalent") None;
                ParameterPart.mk "concept" None
                  (Some (Coding.mk icd11_system_uri "DB64.0"
                           (Some "Iron deficiency anaemia")))])]).
Proof. reflexivity. Qed.

(** C9: for every failed translation, the resource the handler builds is
    the Parameters resource whose only parameter is [result] with value
    false: it has no [match] parameter and no target coding. The handler
    builds it whenever the language, if given, is a supported one (a
    rejected language is refused before the translation is tried). *)
Theorem failed_translation_shape str_lower ai_service engine request :
  (translate_code engine (TranslateRequest.code request)
     (TranslateRequest.system request)
     (TranslateRequest.target_system request)).1.1 = false ->
  (forall r,
     translate_handler str_lower ai_service (Some engine) request
     = Response r ->
     r = failure_resource)
  /\ (opt_truthy (TranslateRequest.language request)
      && negb (validate_language_code str_lower
                 (default EmptyString (TranslateRequest.language request)))
      = false ->
      translate_handler str_lower ai_service (Some engine) request
      = Response failure_resource)
  /\ ParametersResource.parameter failure_resource
     = [FhirParameter.mk "result" (Some false) None None]
  /\ result_flag failure_resource = Some false
  /\ match_parameters failure_resource = []
  /\ target_codings failure_resource = [].
Proof.
  intros Hfail. unfold translate_handler.
  destruct (translate_code engine _ _ _) as [[success primary] allm].
  simpl in Hfail. subst success. simpl.
  split; [|split; [|by repeat split]].
  - intros r. destruct (_ && _); [done|]. by intros [= <-].
  - by intros ->.
Qed.

Lemma failed_translation_shape_witness :
  (translate_code (loaded_state pandu_data) "NO-SUCH-CODE"
     namaste_system_uri icd11_system_uri).1.1 = false
  /\ translate_handler PyStr.ascii_lower None
       (Some (loaded_state pandu_data))
       (TranslateRequest.mk "NO-SUCH-CODE" namaste_system_uri
          icd11_system_uri (Some "hi"))
     = Response failure_resource.
Proof.
  split; [reflexivity|].
  exact (proj1 (proj2 (failed_translation_shape PyStr.ascii_lower None
           (loaded_state pandu_data)
           (TranslateRequest.mk "NO-SUCH-CODE" namaste_system_uri
              icd11_system_uri (Some "hi")) eq_refl)) eq_refl).
Defined.

(** ** Duplicate source codes *)

Lemma reverse_total_setitem k l (d : PyDict.t (list CodeMapping)) :
  reverse_total (PyDict.setitem k l d) + length (default [] (PyDict.get k d))
  = reverse_total d + length l.
Proof.
  induction d as [|[k0 l0] d IH]; simpl; [lia|].
  destruct (String.eqb_spec k k0) as [->|Hne]; simpl in *; lia.
Qed.

(** The reverse index holds every record of the dataset. *)
Lemma reverse_total_loaded md ms :
  reverse_total
    (reverse_mappings (indexed_all (empty_engine md) ms))
  = length ms.
Proof.
  induction ms as [|m ms IH] using rev_ind; [done|].
  rewrite indexed_all_snoc, length_app. simpl.
  match goal with
  | |- reverse_total (PyDict.setitem ?k ?l ?d) = _ =>
      pose proof (reverse_total_setitem k l d) as H
  end.
  rewrite length_app in H. simpl in H. lia.
Qed.

Lemma first_occurrences_app_length l1 l2 :
  length (first_occurrences (l1 ++ l2))
  <= length (first_occurrences l1) + length l2.
Proof.
  induction l2 as [|x l2 IH] using rev_ind.
  - rewrite app_nil_r. simpl. lia.
  - rewrite app_assoc, first_occurrences_snoc, !length_app. simpl.
    destruct (decide _); [|rewrite length_app; simpl]; lia.
Qed.

Lemma first_occurrences_length l : length (first_occurrences l) <= length l.
Proof. apply (first_occurrences_app_length [] l). Qed.

(** A repeated element makes the list of first occurrences shorter. *)
Lemma first_occurrences_repeat l1 x l2 :
  x ∈ l1 ->
  length (first_occurrences (l1 ++ x :: l2)) < length (l1 ++ x :: l2).
Proof.
  intros Hin. rewrite (cons_middle x l1 l2), app_assoc.
  pose proof (first_occurrences_app_length (l1 ++ [x]) l2) as H.
  rewrite first_occurrences_snoc, decide_True in H by done.
  pose proof (first_occurrences_length l1).
  rewrite !length_app. simpl. lia.
Qed.

Lemma values_keyed_get {V} (d : PyDict.t V) v :
  NoDup (PyDict.keys d) -> v ∈ PyDict.values d ->
  exists k, PyDict.get k d = Some v.
Proof.
  intros Hnd ([k v'] & -> & Hin)%list_elem_of_fmap. exists k.
  by apply PyDictFacts.items_get_NoDup.
Qed.

(** C10: when a loaded dataset holds two records with one source code,
    the later of which is the last with that code, the forward index maps
    the code to the later record only; the reverse index still lists both
    records under their target codes, in load order; the reverse
    translation of the earlier record's target code still returns the
    earlier record; [total_mappings] reports the size of the forward
    index, which is the number of distinct source codes of the dataset;
    and the reverse lists together hold every record of the dataset, which
    is more than the size of the forward index, that is, more than
    [total_mappings] reports. *)
Theorem duplicate_source_code data e before r1 between r2 after :
  MappingEngine_init (Some data) = Ok e ->
  dataset_records data = (before ++ r1 :: between ++ r2 :: after)%list ->
  namaste_code r1 = namaste_code r2 ->
  Forall (fun m => namaste_code m ≠ namaste_code r2) after ->
  PyDict.get (namaste_code r1) (mappings e) = Some r2
  /\ (r1 ≠ r2 -> r1 ∉ PyDict.values (mappings e))
  /\ PyDict.get (icd11_code r1) (reverse_mappings e)
     = Some (with_target (icd11_code r1) (dataset_records data))
  /\ PyDict.get (icd11_code r2) (reverse_mappings e)
     = Some (with_target (icd11_code r2) (dataset_records data))
  /\ r1 ∈ with_target (icd11_code r1) (dataset_records data)
  /\ r2 ∈ with_target (icd11_code r2) (dataset_records data)
  /\ (translate_code e (icd11_code r1) icd11_system_uri namaste_system_uri).1.1
     = true
  /\ r1 ∈ (translate_code e (icd11_code r1)
             icd11_system_uri namaste_system_uri).2
  /\ reverse_total (reverse_mappings e) = length (dataset_records data)
  /\ total_mappings (get_statistics e) < reverse_total (reverse_mappings e)
  /\ total_mappings (get_statistics e) = PyDict.len (mappings e)
  /\ PyDict.len (mappings e)
     = length (first_occurrences (map namaste_code (dataset_records data)))
  /\ PyDict.len (mappings e) < reverse_total (reverse_mappings e).
Proof.
  intros He Hrecs Hcode Hafter.
  assert (Hr1 : r1 ∈ dataset_records data).
  { rewrite Hrecs, elem_of_app, elem_of_cons. tauto. }
  assert (Hr2 : r2 ∈ dataset_records data).
  { rewrite Hrecs, elem_of_app, elem_of_cons, elem_of_app, elem_of_cons.
    tauto. }
  assert (Hfwd : PyDict.get (namaste_code r1) (mappings e) = Some r2).
  { rewrite (init_Ok _ _ He). unfold loaded_state.
    rewrite Hrecs, Hcode.
    replace (before ++ r1 :: between ++ r2 :: after)%list
      with ((before ++ r1 :: between) ++ r2 :: after)%list
      by (by rewrite <- app_assoc).
    by apply forward_get_final. }
  assert (Hw1 : r1 ∈ with_target (icd11_code r1) (dataset_records data))
    by by apply list_elem_of_filter.
  assert (Hw2 : r2 ∈ with_target (icd11_code r2) (dataset_records data))
    by by apply list_elem_of_filter.
  apply init_Ok in He as ->. unfold loaded_state in *.
  set (md := default ∅ (ds_metadata data)) in *.
  set (ms := dataset_records data) in *.
  assert (Hg1 : PyDict.get (icd11_code r1)
            (reverse_mappings (indexed_all (empty_engine md) ms))
          = Some (with_target (icd11_code r1) ms)).
  { rewrite reverse_get. destruct (with_target (icd11_code r1) ms); [|done].
    by apply elem_of_nil in Hw1. }
  assert (Hg2 : PyDict.get (icd11_code r2)
            (reverse_mappings (indexed_all (empty_engine md) ms))
          = Some (with_target (icd11_code r2) ms)).
  { rewrite reverse_get. destruct (with_target (icd11_code r2) ms); [|done].
    by apply elem_of_nil in Hw2. }
  split; [done|]. split.
  { intros Hne Hin. apply values_keyed_get in Hin as [k Hk].
    - pose proof (forward_entries_keyed md ms) as Hkeyed.
      rewrite Forall_forall in Hkeyed.
      specialize (Hkeyed (k, r1) (PyDictFacts.get_Some_items _ _ _ Hk)).
      simpl in Hkeyed. subst k. congruence.
    - rewrite forward_keys. apply NoDup_first_occurrences. }
  split; [done|]. split; [done|]. split; [done|]. split; [done|].
  rewrite translate_code_reverse, Hg1. simpl.
  destruct (with_target (icd11_code r1) ms) as [|m l] eqn:E;
    [by apply elem_of_nil in Hw1|].
  split; [done|]. split; [done|].
  assert (Htot : total_mappings
                   (get_statistics (indexed_all (empty_engine md) ms))
                 = PyDict.len (mappings (indexed_all (empty_engine md) ms))).
  { unfold get_statistics. by destruct (count_loop _ _ _). }
  assert (Hlen : PyDict.len (mappings (indexed_all (empty_engine md) ms))
                 = length (first_occurrences (map namaste_code ms))).
  { unfold PyDict.len. rewrite <- (length_map fst).
    change (length (PyDict.keys (mappings
              (indexed_all (empty_engine md) ms))) = 
            length (first_occurrences (map namaste_code ms))).
    by rewrite forward_keys. }
  rewrite reverse_total_loaded, Htot, Hlen.
  enough (length (first_occurrences (map namaste_code ms))
          < length (map namaste_code ms))
    by (rewrite length_map in *; done).
  subst ms. rewrite Hrecs, map_app. cbn [map]. rewrite map_app. cbn [map].
  replace (map namaste_code before ++ namaste_code r1
             :: map namaste_code between ++ namaste_code r2
             :: map namaste_code after)%list
    with ((map namaste_code before ++ namaste_code r1
             :: map namaste_code between) ++ namaste_code r1
             :: map namaste_code after)%list
    by (by rewrite <- app_assoc, Hcode).
  apply first_occurrences_repeat.
  rewrite elem_of_app, elem_of_cons. tauto.
Qed.

Lemma duplicate_source_code_witness :
  MappingEngine_init (Some duplicate_source_data)
    = Ok (loaded_state duplicate_source_data)
  /\ dataset_records duplicate_source_data
     = ([] ++ pandu :: [] ++ pandu_again :: [])%list
  /\ namaste_code pandu = namaste_code pandu_again
  /\ Forall (fun m => namaste_code m ≠ namaste_code pandu_again) []
  /\ PyDict.get (namaste_code pandu)
       (mappings (loaded_state duplicate_source_data)) = Some pandu_again
  /\ total_mappings (get_statistics (loaded_state duplicate_source_data))
     < reverse_total (reverse_mappings (loaded_state duplicate_source_data))
  /\ total_mappings (get_statistics (loaded_state duplicate_source_data))
     = PyDict.len (mappings (loaded_state duplicate_source_data)).
Proof.
  split; [reflexivity|]. split; [reflexivity|]. split; [reflexivity|].
  split; [constructor|].
  pose proof (duplicate_source_code duplicate_source_data
                (loaded_state duplicate_source_data) [] pandu [] pandu_again []
                eq_refl eq_refl eq_refl (List.Forall_nil _)) as H.
  split; [apply H|]. split; apply H.
Defined.

Example duplicate_source_indices :
  mappings (loaded_state duplicate_source_data)
    = [("NAM-1001", pandu_again)]
  /\ reverse_mappings (loaded_state duplicate_source_data)
    = [("DB64.0", [pandu]); ("3A00", [pandu_again])]
  /\ translate_code (loaded_state duplicate_source_data) "DB64.0"
       icd11_system_uri namaste_system_uri
     = (true, Some pandu, [pandu])
  /\ total_mappings (get_statistics (loaded_state duplicate_source_data)) = 1
  /\ reverse_total (reverse_mappings (loaded_state duplicate_source_data)) = 2.
Proof. repeat split; reflexivity. Qed.

(** * Further properties of the code *)

(** ** The equivalence codes and the constructor *)

Lemma EquivalenceEnum_call_value e :
  EquivalenceEnum_call (EquivalenceEnum_value e) = Ok e.
Proof. by destruct e. Qed.

Lemma EquivalenceEnum_lookup_value v e :
  EquivalenceEnum_lookup v = Some e -> EquivalenceEnum_value e = v.
Proof.
  unfold EquivalenceEnum_lookup. intros [_ H]%find_some.
  symmetry. by apply String.eqb_eq.
Qed.

(** X1: converting the value of a member gives the member back; a
    conversion that succeeds returns the member with that value; any other
    text is a [ValueError] carrying the text. *)
Theorem EquivalenceEnum_round_trip :
  (forall e, EquivalenceEnum_call (EquivalenceEnum_value e) = Ok e)
  /\ (forall v e, EquivalenceEnum_call v = Ok e -> EquivalenceEnum_value e = v)
  /\ (forall v, (exists e, EquivalenceEnum_call v = Ok e)
                \/ EquivalenceEnum_call v = Raise (ValueError v)).
Proof.
  split; [apply EquivalenceEnum_call_value|]. split.
  - intros v e. unfold EquivalenceEnum_call.
    destruct (EquivalenceEnum_lookup v) as [e'|] eqn:E; [|done].
    intros [= <-]. by apply EquivalenceEnum_lookup_value.
  - intros v. unfold EquivalenceEnum_call.
    destruct (EquivalenceEnum_lookup v) as [e|]; [left; by exists e|by right].
Qed.

Lemma CodeMapping_init_of_fields d m :
  d !! "namaste_code" = Some (namaste_code m) ->
  d !! "namaste_display" = Some (namaste_display m) ->
  d !! "namaste_system" = Some (namaste_system m) ->
  d !! "icd11_code" = Some (icd11_code m) ->
  d !! "icd11_display" = Some (icd11_display m) ->
  d !! "equivalence" = Some (EquivalenceEnum_value (equivalence m)) ->
  d !! "notes" = notes m ->
  CodeMapping_init d = Ok m.
Proof.
  intros H1 H2 H3 H4 H5 H6 H7. unfold CodeMapping_init, data_getitem.
  rewrite H1, H2, H3, H4, H5, H6, H7. simpl.
  rewrite EquivalenceEnum_call_value. simpl. by destruct m.
Qed.

(** X2: the constructor succeeds with a mapping [m] exactly when the raw
    record holds the five string fields of [m], the value of [m]'s
    equivalence, and the notes of [m] (absent when [m] has none). *)
Theorem CodeMapping_init_reads_fields d m :
  CodeMapping_init d = Ok m <->
  d !! "namaste_code" = Some (namaste_code m)
  /\ d !! "namaste_display" = Some (namaste_display m)
  /\ d !! "namaste_system" = Some (namaste_system m)
  /\ d !! "icd11_code" = Some (icd11_code m)
  /\ d !! "icd11_display" = Some (icd11_display m)
  /\ d !! "equivalence" = Some (EquivalenceEnum_value (equivalence m))
  /\ d !! "notes" = notes m.
Proof.
  split.
  - lookup_cases d; intros [= <-]; simpl. repeat split.
    f_equal. symmetry. by apply EquivalenceEnum_lookup_value.
  - intros (H1 & H2 & H3 & H4 & H5 & H6 & H7).
    by apply CodeMapping_init_of_fields.
Qed.

(** X3: the constructor reads the required fields in a fixed order, so
    the [KeyError] it raises names the first required field, in that order,
    that the record lacks. *)
Theorem CodeMapping_init_first_missing d i f :
  required_fields !! i = Some f ->
  d !! f = None ->
  (forall j g, j < i -> required_fields !! j = Some g -> is_Some (d !! g)) ->
  CodeMapping_init d = Raise (KeyError f).
Proof.
  intros Hf Hnone Hbefore.
  assert (H0 : 0 < i -> is_Some (d !! "namaste_code"))
    by (intros; by apply (Hbefore 0)).
  assert (H1 : 1 < i -> is_Some (d !! "namaste_display"))
    by (intros; by apply (Hbefore 1)).
  assert (H2 : 2 < i -> is_Some (d !! "namaste_system"))
    by (intros; by apply (Hbefore 2)).
  assert (H3 : 3 < i -> is_Some (d !! "icd11_code"))
    by (intros; by apply (Hbefore 3)).
  assert (H4 : 4 < i -> is_Some (d !! "icd11_display"))
    by (intros; by apply (Hbefore 4)).
  clear Hbefore. unfold CodeMapping_init, data_getitem.
  do 6 (destruct i as [|i];
        [injection Hf as <-; rewrite Hnone;
         repeat match goal with
                | H : _ -> is_Some _ |- _ =>
                    first [destruct H as [? ->]; [lia|] | clear H]
                end; reflexivity|]).
  done.
Qed.

Lemma CodeMapping_init_first_missing_witness :
  required_fields !! 3 = Some "icd11_code"
  /\ no_target_raw !! "icd11_code" = None
  /\ CodeMapping_init no_target_raw = Raise (KeyError "icd11_code").
Proof.
  split; [reflexivity|]. split; [reflexivity|].
  apply (CodeMapping_init_first_missing no_target_raw 3 "icd11_code");
    [reflexivity|reflexivity|].
  intros j g Hj Hg.
  destruct j as [|[|[|j]]]; [| | |lia]; injection Hg as <-; by eexists.
Defined.

(** X4: building a mapping from the dictionary that [to_dict] gives for
    a mapping returns that mapping. *)
Theorem to_dict_round_trip m :
  CodeMapping_init (as_mapping_data (to_dict m)) = Ok m.
Proof.
  destruct m as [c cd cs i id e [n|]];
    by apply CodeMapping_init_of_fields.
Qed.

(** ** Loading *)

Lemma parse_records_not_malformed ds ms :
  parse_records ds = Ok ms -> Forall (fun d => ~ malformed d) ds.
Proof.
  revert ms. induction ds as [|d ds IH]; intros ms; simpl; [by constructor|].
  destruct (CodeMapping_init d) as [m|x] eqn:E; simpl; [|done].
  destruct (parse_records ds) as [ms'|x]; simpl; [|done].
  intros _. constructor; [by eapply CodeMapping_init_Ok|by eapply IH].
Qed.

Lemma parse_records_app_Raise good bad rest ms x :
  parse_records good = Ok ms ->
  CodeMapping_init bad = Raise x ->
  parse_records (good ++ bad :: rest) = Raise x.
Proof.
  revert ms. induction good as [|d good IH]; intros ms; simpl.
  - by intros _ ->.
  - destruct (CodeMapping_init d) as [m|y]; simpl; [|done].
    destruct (parse_records good) as [ms'|y]; simpl; [|done].
    intros _ Hbad. by rewrite (IH ms' eq_refl Hbad).
Qed.

(** X5: constructing the engine from an existing file succeeds exactly
    when no record of the file is malformed (lacks a required field or has
    an equivalence outside the enumeration). *)
Theorem load_succeeds_iff_wellformed data :
  (exists e, MappingEngine_init (Some data) = Ok e) <->
  Forall (fun d => ~ malformed d) (default [] (ds_mappings data)).
Proof.
  split.
  - intros [e He]. unfold MappingEngine_init, _load_mappings in He.
    destruct (load_loop _ _) as [self [x|]] eqn:E; [done|].
    apply load_loop_Ok in E as (ms & Hp & _).
    by eapply parse_records_not_malformed.
  - intros Hall. exists (loaded_state data).
    unfold MappingEngine_init, _load_mappings, loaded_state, dataset_records.
    assert (Hp : exists ms,
               parse_records (default [] (ds_mappings data)) = Ok ms).
    { induction Hall as [|d ds Hd _ [ms IH]]; [by exists []|].
      simpl. destruct (CodeMapping_init d) as [m|x] eqn:E.
      - exists (m :: ms). simpl. by rewrite IH.
      - exfalso. apply Hd. apply CodeMapping_init_Raise in E.
        destruct x as [f|v|]; simpl in E;
          [left; by exists f|right; by exists v|done]. }
    destruct Hp as [ms Hp]. rewrite Hp.
    by rewrite (load_loop_parsed _ _ _ Hp).
Qed.

(** X6: the loading loop stops at the first record that does not
    convert: it has then indexed exactly the records before it, none after
    it, and the exception is the one of that record. *)
Theorem load_stops_at_first_bad_record self good bad rest ms x :
  parse_records good = Ok ms ->
  CodeMapping_init bad = Raise x ->
  load_loop self (good ++ bad :: rest) = (indexed_all self ms, Some x).
Proof.
  revert self ms. induction good as [|d good IH]; intros self ms; simpl.
  - intros [= <-] Hbad. unfold load_step. by rewrite Hbad.
  - unfold load_step. destruct (CodeMapping_init d) as [m|y]; simpl; [|done].
    destruct (parse_records good) as [ms'|y] eqn:E; simpl; [|done].
    intros [= <-] Hbad. rewrite index_mapping_indexed.
    exact (IH (indexed self m) ms' eq_refl Hbad).
Qed.

Lemma load_stops_at_first_bad_record_witness :
  parse_records [pandu_raw] = Ok [pandu]
  /\ CodeMapping_init bad_equivalence_raw = Raise (ValueError "similar")
  /\ load_loop (empty_engine ∅)
       ([pandu_raw] ++ bad_equivalence_raw :: [kamala_raw])
     = (indexed_all (empty_engine ∅) [pandu], Some (ValueError "similar")).
Proof.
  split; [reflexivity|]. split; [reflexivity|].
  exact (load_stops_at_first_bad_record (empty_engine ∅) [pandu_raw]
           bad_equivalence_raw [kamala_raw] [pandu] (ValueError "similar")
           eq_refl eq_refl).
Defined.

(** X7: a missing mappings file, or a file without records, is not an
    error: the engine is built with both indices empty, every translation
    then fails, every search is empty and both groupings are empty. *)
Theorem empty_dataset_gives_empty_engine file :
  default [] (file ≫= ds_mappings) = [] ->
  exists e,
    MappingEngine_init file = Ok e
    /\ mappings e = PyDict.empty
    /\ reverse_mappings e = PyDict.empty
    /\ (forall code source_system target_system,
          translate_code e code source_system target_system
          = (false, None, []))
    /\ (forall str_lower query search_fields,
          search_mappings str_lower e query search_fields = [])
    /\ (forall source_system target_system,
          get_mappings_for_concept_map e source_system target_system = Ok [])
    /\ total_mappings (get_statistics e) = 0.
Proof.
  intros Hempty.
  assert (He : exists md, MappingEngine_init file = Ok (empty_engine md)).
  { unfold MappingEngine_init, _load_mappings.
    destruct file as [data|]; simpl in *; [|by exists ∅].
    rewrite Hempty. by eexists. }
  destruct He as [md He]. exists (empty_engine md).
  split; [done|]. split; [done|]. split; [done|]. split.
  { intros code s t. unfold translate_code.
    by destruct (String.eqb s namaste_system_uri),
                (String.eqb t icd11_system_uri),
                (String.eqb s icd11_system_uri),
                (String.eqb t namaste_system_uri). }
  split; [done|]. split; [|done].
  intros s t. unfold get_mappings_for_concept_map.
  by destruct (String.eqb s namaste_system_uri),
              (String.eqb t icd11_system_uri),
              (String.eqb s icd11_system_uri),
              (String.eqb t namaste_system_uri).
Qed.

Lemma empty_dataset_gives_empty_engine_witness :
  default [] (None ≫= ds_mappings) = []
  /\ exists e,
    MappingEngine_init None = Ok e
    /\ mappings e = PyDict.empty
    /\ reverse_mappings e = PyDict.empty
    /\ (forall code source_system target_system,
          translate_code e code source_system target_system
          = (false, None, []))
    /\ (forall str_lower query search_fields,
          search_mappings str_lower e query search_fields = [])
    /\ (forall source_system target_system,
          get_mappings_for_concept_map e source_system target_system = Ok [])
    /\ total_mappings (get_statistics e) = 0.
Proof.
  split; [reflexivity|].
  exact (empty_dataset_gives_empty_engine None eq_refl).
Defined.

(** Every record held by an index of a loaded engine is a record of the
    dataset. *)
Lemma with_source_elem k ms m :
  last (with_source k ms) = Some m -> namaste_code m = k /\ m ∈ ms.
Proof.
  intros H. assert (Hin : m ∈ with_source k ms).
  { destruct (with_source k ms) as [|a l] using rev_ind; [done|].
    rewrite last_snoc in H. injection H as ->.
    apply elem_of_app. right. apply elem_of_cons. by left. }
  unfold with_source in Hin. by apply list_elem_of_filter in Hin.
Qed.

(** X8: the two indices of a loaded engine agree with each other and with
    the dataset: a forward entry sits under its own source code, is a
    record of the dataset and is listed by the reverse index under its
    target code; a reverse list is never empty and holds only records of
    the dataset with the key as target code. *)
Theorem indices_agree data e :
  MappingEngine_init (Some data) = Ok e ->
  (forall k m, PyDict.get k (mappings e) = Some m ->
     namaste_code m = k
     /\ m ∈ dataset_records data
     /\ exists l, PyDict.get (icd11_code m) (reverse_mappings e) = Some l
                  /\ m ∈ l)
  /\ (forall k l, PyDict.get k (reverse_mappings e) = Some l ->
        l ≠ []
        /\ forall m, m ∈ l -> icd11_code m = k /\ m ∈ dataset_records data).
Proof.
  intros -> %init_Ok. unfold loaded_state. split.
  - intros k m. rewrite forward_get. intros [Hk Hin]%with_source_elem.
    split; [done|]. split; [done|]. rewrite reverse_get.
    assert (Hw : m ∈ with_target (icd11_code m) (dataset_records data))
      by by apply list_elem_of_filter.
    destruct (with_target _ _) as [|a l] eqn:E;
      [by apply elem_of_nil in Hw|].
    by exists (a :: l).
  - intros k l. rewrite reverse_get.
    destruct (with_target k _) as [|a l'] eqn:E; [done|].
    intros [= <-]. split; [done|]. intros m Hm. rewrite <- E in Hm.
    unfold with_target in Hm. by apply list_elem_of_filter in Hm.
Qed.

Lemma indices_agree_witness :
  MappingEngine_init (Some duplicate_source_data)
    = Ok (loaded_state duplicate_source_data)
  /\ forall k l,
       PyDict.get k (reverse_mappings (loaded_state duplicate_source_data))
         = Some l ->
       l ≠ []
       /\ forall m, m ∈ l ->
            icd11_code m = k /\ m ∈ dataset_records duplicate_source_data.
Proof.
  split; [reflexivity|].
  exact (proj2 (indices_agree duplicate_source_data
                  (loaded_state duplicate_source_data) eq_refl)).
Defined.

(** X9: the engine is a singleton that is loaded once: after a call that
    built it, every later call returns that same engine whatever the file
    has become; after a call that failed, the singleton is still unset and
    the next call loads again. *)
Theorem singleton_is_loaded_once file instance outcome :
  get_mapping_engine None file = (instance, outcome) ->
  match outcome with
  | Ok e =>
      instance = Some e
      /\ forall file', get_mapping_engine instance file' = (Some e, Ok e)
  | Raise _ =>
      instance = None
      /\ forall file',
           get_mapping_engine instance file' = get_mapping_engine None file'
  end.
Proof.
  unfold get_mapping_engine at 1.
  destruct (MappingEngine_init file) as [e|x]; intros [= <- <-]; by split.
Qed.

Lemma singleton_is_loaded_once_witness :
  get_mapping_engine None (Some pandu_data)
    = (Some (loaded_state pandu_data), Ok (loaded_state pandu_data))
  /\ get_mapping_engine (Some (loaded_state pandu_data))
       (Some duplicate_source_data)
     = (Some (loaded_state pandu_data), Ok (loaded_state pandu_data)).
Proof.
  split; [reflexivity|].
  exact (proj2 (singleton_is_loaded_once (Some pandu_data)
                  (Some (loaded_state pandu_data))
                  (Ok (loaded_state pandu_data)) eq_refl)
               (Some duplicate_source_data)).
Defined.

(** ** Translation and its operation result *)

(** X10: on a loaded engine, a forward translation that succeeds returns
    a mapping with the code asked for, and the reverse translation of that
    mapping's target code succeeds with a list that contains it. *)
Theorem forward_then_reverse data e code m all :
  MappingEngine_init (Some data) = Ok e ->
  translate_code e code namaste_system_uri icd11_system_uri
    = (true, Some m, all) ->
  namaste_code m = code
  /\ exists primary others,
       translate_code e (icd11_code m) icd11_system_uri namaste_system_uri
         = (true, Some primary, primary :: others)
       /\ m ∈ primary :: others.
Proof.
  intros -> %init_Ok. rewrite translate_code_forward. unfold loaded_state.
  destruct (PyDict.get code _) as [m'|] eqn:E; [|done]. intros [= -> <-].
  rewrite forward_get in E. apply with_source_elem in E as [Hk Hin].
  split; [done|]. rewrite translate_code_reverse, reverse_get.
  assert (Hw : m ∈ with_target (icd11_code m) (dataset_records data))
    by by apply list_elem_of_filter.
  destruct (with_target _ _) as [|a l] eqn:E';
    [by apply elem_of_nil in Hw|].
  by exists a, l.
Qed.

Lemma forward_then_reverse_witness :
  MappingEngine_init (Some shared_target_data)
    = Ok (loaded_state shared_target_data)
  /\ translate_code (loaded_state shared_target_data) "NAM-1002"
       namaste_system_uri icd11_system_uri
     = (true, Some kamala, [kamala])
  /\ namaste_code kamala = "NAM-1002"
  /\ exists primary others,
       translate_code (loaded_state shared_target_data) (icd11_code kamala)
           icd11_system_uri namaste_system_uri
         = (true, Some primary, primary :: others)
       /\ kamala ∈ primary :: others.
Proof.
  split; [reflexivity|]. split; [reflexivity|].
  exact (forward_then_reverse shared_target_data
           (loaded_state shared_target_data) "NAM-1002" kamala [kamala]
           eq_refl eq_refl).
Defined.

(** X11: on a loaded engine, every mapping returned by a reverse
    translation has the code asked for as its target code, and the forward
    translation of its source code succeeds with a mapping of that source
    code (the last record of the dataset with it). *)
Theorem reverse_then_forward data e code primary all m :
  MappingEngine_init (Some data) = Ok e ->
  translate_code e code icd11_system_uri namaste_system_uri
    = (true, primary, all) ->
  m ∈ all ->
  icd11_code m = code
  /\ exists m',
       translate_code e (namaste_code m) namaste_system_uri icd11_system_uri
         = (true, Some m', [m'])
       /\ namaste_code m' = namaste_code m.
Proof.
  intros -> %init_Ok. rewrite translate_code_reverse. unfold loaded_state.
  rewrite reverse_get.
  destruct (with_target code _) as [|a l] eqn:E; [done|]. simpl.
  intros [= <- <-] Hm. rewrite <- E in Hm. unfold with_target in Hm.
  apply list_elem_of_filter in Hm as [Hcode Hin]. split; [done|].
  rewrite translate_code_forward, forward_get.
  assert (Hw : m ∈ with_source (namaste_code m) (dataset_records data))
    by by apply list_elem_of_filter.
  destruct (with_source _ _) as [|b l'] eqn:E' using rev_ind;
    [by apply elem_of_nil in Hw|].
  rewrite last_snoc. exists b. split; [done|].
  assert (Hb : b ∈ with_source (namaste_code m) (dataset_records data)).
  { rewrite E'. apply elem_of_app. right. apply elem_of_cons. by left. }
  unfold with_source in Hb. by apply list_elem_of_filter in Hb as [? _].
Qed.

Lemma reverse_then_forward_witness :
  MappingEngine_init (Some duplicate_source_data)
    = Ok (loaded_state duplicate_source_data)
  /\ translate_code (loaded_state duplicate_source_data) "DB64.0"
       icd11_system_uri namaste_system_uri
     = (true, Some pandu, [pandu])
  /\ pandu ∈ [pandu]
  /\ icd11_code pandu = "DB64.0"
  /\ exists m',
       translate_code (loaded_state duplicate_source_data)
           (namaste_code pandu) namaste_system_uri icd11_system_uri
         = (true, Some m', [m'])
       /\ namaste_code m' = namaste_code pandu.
Proof.
  assert (Hin : pandu ∈ [pandu]) by (apply elem_of_cons; by left).
  split; [reflexivity|]. split; [reflexivity|]. split; [exact Hin|].
  exact (reverse_then_forward duplicate_source_data
           (loaded_state duplicate_source_data) "DB64.0" (Some pandu)
           [pandu] pandu eq_refl eq_refl Hin).
Defined.

Ltac settle_case :=
  repeat split; intros; try done; try lia;
  try (by match goal with H : is_Some None |- _ => destruct H end);
  try (by eexists); try (by left); try (by right).

Lemma translate_code_cases self code source_system target_system :
  let '(success, primary, all) :=
    translate_code self code source_system target_system in
  primary = head all
  /\ (success = true <-> is_Some primary)
  /\ (source_system = namaste_system_uri -> length all <= 1)
  /\ (success = true ->
      (source_system, target_system) = (namaste_system_uri, icd11_system_uri)
      \/ (source_system, target_system)
         = (icd11_system_uri, namaste_system_uri)).
Proof.
  unfold translate_code.
  destruct (String.eqb_spec source_system namaste_system_uri) as [->|Hs];
    simpl.
  - destruct (String.eqb_spec target_system icd11_system_uri) as [->|Ht];
      simpl; [|settle_case].
    unfold translate_namaste_to_icd11.
    destruct (PyDict.get code (mappings self)); simpl; settle_case.
  - destruct (String.eqb_spec source_system icd11_system_uri) as [->|Hs'];
      simpl; [|settle_case].
    destruct (String.eqb_spec target_system namaste_system_uri) as [->|Ht];
      simpl; [|settle_case].
    unfold translate_icd11_to_namaste.
    destruct (default [] _) as [|m ms]; simpl; settle_case.
Qed.

(** X12: in every state of the engine and for every input, the three
    components of the result of [translate_code] are consistent: the primary
    mapping is the first element of the list, success holds exactly when
    there is a primary mapping, a forward translation lists at most one
    mapping, and success implies one of the two supported directions. *)
Theorem translate_code_consistent self code source_system target_system :
  let '(success, primary, all) :=
    translate_code self code source_system target_system in
  primary = head all
  /\ (success = true <-> is_Some primary)
  /\ (source_system = namaste_system_uri -> length all <= 1)
  /\ (success = true ->
      (source_system, target_system) = (namaste_system_uri, icd11_system_uri)
      \/ (source_system, target_system)
         = (icd11_system_uri, namaste_system_uri)).
Proof. apply translate_code_cases. Qed.

(** X13: with the engine in place the translate handler never answers
    with a server error: it returns a resource, unless a language is given
    that is not empty and not supported, which is a 400 raised before the
    translation. *)
Theorem translate_handler_no_server_error str_lower ai_service engine
    request :
  match translate_handler str_lower ai_service (Some engine) request with
  | Response _ =>
      opt_truthy (TranslateRequest.language request)
      && negb (validate_language_code str_lower
                 (default EmptyString (TranslateRequest.language request)))
      = false
  | HTTPException status_code _ =>
      status_code = 400
      /\ exists lang,
           TranslateRequest.language request = Some lang
           /\ lang ≠ EmptyString
           /\ validate_language_code str_lower lang = false
  end.
Proof.
  unfold translate_handler.
  destruct (opt_truthy _ && negb _) eqn:Hlang.
  - split; [done|]. apply andb_true_iff in Hlang as [Ht Hv].
    destruct (TranslateRequest.language request) as [lang|]; [|done].
    exists lang. simpl in *. split; [done|]. split.
    + by destruct lang.
    + by apply negb_true_iff.
  - pose proof (translate_code_cases engine (TranslateRequest.code request)
                  (TranslateRequest.system request)
                  (TranslateRequest.target_system request)) as H.
    destruct (translate_code engine _ _ _) as [[success primary] all].
    destruct H as (_ & Hs & _). destruct success; simpl; [|done].
    destruct primary as [m|].
    + by destruct (String.eqb _ _).
    + by destruct (proj1 Hs eq_refl).
Qed.

(** X14: when the translation succeeds with primary mapping [m], the
    resource the handler returns has its result flag true and carries
    exactly one match, whose coding is the requested target system with
    the target code and display of [m] for the direction asked; unless that
    target code is the empty string, in which case the resource says true
    and carries no match at all. *)
Theorem successful_translation_result str_lower ai_service engine request
    m all r :
  translate_code engine (TranslateRequest.code request)
    (TranslateRequest.system request)
    (TranslateRequest.target_system request) = (true, Some m, all) ->
  translate_handler str_lower ai_service (Some engine) request = Response r ->
  result_flag r = Some true
  /\ target_codings r
     = (if String.eqb (TranslateRequest.system request) namaste_system_uri
        then if PyStr.truthy (icd11_code m)
             then [Coding.mk (TranslateRequest.target_system request)
                     (icd11_code m) (Some (icd11_display m))]
             else []
        else if PyStr.truthy (namaste_code m)
             then [Coding.mk (TranslateRequest.target_system request)
                     (namaste_code m) (Some (namaste_display m))]
             else [])
  /\ length (match_parameters r) = length (target_codings r).
Proof.
  intros Htr. unfold translate_handler.
  destruct (opt_truthy _ && negb _); [done|].
  pose proof (translate_code_cases engine (TranslateRequest.code request)
                (TranslateRequest.system request)
                (TranslateRequest.target_system request)) as H.
  rewrite Htr in H |- *. destruct H as (_ & _ & _ & Hdir). simpl.
  assert (Ht : PyStr.truthy (TranslateRequest.target_system request) = true).
  { destruct (Hdir eq_refl) as [H|H]; injection H as _ ->; reflexivity. }
  unfold build_translate_response.
  destruct (String.eqb _ namaste_system_uri); intros [= <-]; simpl;
    rewrite Ht; simpl;
    [destruct (PyStr.truthy (icd11_code m))
    |destruct (PyStr.truthy (namaste_code m))];
    by destruct (opt_truthy (explanation _ _ _)).
Qed.

Lemma successful_translation_result_witness :
  translate_code (loaded_state pandu_data) "DB64.0"
    icd11_system_uri namaste_system_uri = (true, Some pandu, [pandu])
  /\ translate_handler PyStr.ascii_lower None
       (Some (loaded_state pandu_data))
       (TranslateRequest.mk "DB64.0" icd11_system_uri namaste_system_uri
          None)
     = Response
         (ParametersResource.mk "Parameters"
            [FhirParameter.mk "result" (Some true) None None;
             FhirParameter.mk "match" None None
               (Some [ParameterPart.mk "equivalence" (Some "equivalent") None;
                      ParameterPart.mk "concept" None
                        (Some (Coding.mk namaste_system_uri "NAM-1001"
                                 (Some "Pandu")))])])
  /\ target_codings
       (ParametersResource.mk "Parameters"
          [FhirParameter.mk "result" (Some true) None None;
           FhirParameter.mk "match" None None
             (Some [ParameterPart.mk "equivalence" (Some "equivalent") None;
                    ParameterPart.mk "concept" None
                      (Some (Coding.mk namaste_system_uri "NAM-1001"
                               (Some "Pandu")))])])
     = [Coding.mk namaste_system_uri "NAM-1001" (Some "Pandu")].
Proof.
  split; [reflexivity|]. split; [reflexivity|].
  exact (proj1 (proj2 (successful_translation_result PyStr.ascii_lower None
           (loaded_state pandu_data)
           (TranslateRequest.mk "DB64.0" icd11_system_uri namaste_system_uri
              None)
           pandu [pandu] _ eq_refl eq_refl))).
Defined.

(** X15: for all its arguments, the translate builder puts the result
    flag first with the value given, adds one match (with one coding)
    exactly when the result is true and both the target code and the
    target system are present and not empty, adds the explanation exactly
    when it is present and not empty, and adds nothing else. *)
Theorem build_translate_response_parameters result source_code target_code
    target_display target_system equivalence ai_explanation :
  let r := build_translate_response result source_code target_code
             target_display target_system equivalence ai_explanation in
  let has_match :=
    result && opt_truthy target_code && opt_truthy target_system in
  result_flag r = Some result
  /\ length (match_parameters r) = (if has_match then 1 else 0)
  /\ length (target_codings r) = (if has_match then 1 else 0)
  /\ existsb (fun p => String.eqb (FhirParameter.name p) "ai_explanation")
       (ParametersResource.parameter r) = opt_truthy ai_explanation
  /\ length (ParametersResource.parameter r)
     = 1 + (if has_match then 1 else 0)
       + (if opt_truthy ai_explanation then 1 else 0).
Proof.
  unfold build_translate_response.
  destruct result, target_code as [[|c tc]|], target_system as [[|c' ts]|],
    (opt_truthy ai_explanation); by simpl.
Qed.

(** ** Search *)

Lemma search_loop_sublist str_lower ql fields ms :
  sublist (search_loop str_lower ql fields ms) ms.
Proof.
  induction ms as [|m ms IH]; simpl; [constructor|].
  destruct (any_field_hit str_lower ql m fields); by constructor.
Qed.

Lemma total_mappings_len self :
  total_mappings (get_statistics self) = length (mappings self).
Proof. unfold get_statistics. by destruct (count_loop _ _ _). Qed.

(** X16: a search never invents or repeats a record: on a loaded engine
    its result is a sub-sequence of the values of the forward index, so it
    has at most [total_mappings] records and no two of them share a source
    code. *)
Theorem search_results_sublist str_lower data e query search_fields :
  MappingEngine_init (Some data) = Ok e ->
  sublist (search_mappings str_lower e query search_fields)
          (PyDict.values (mappings e))
  /\ length (search_mappings str_lower e query search_fields)
     <= total_mappings (get_statistics e)
  /\ NoDup (map namaste_code
              (search_mappings str_lower e query search_fields)).
Proof.
  intros He.
  assert (Hsub : sublist (search_mappings str_lower e query search_fields)
                         (PyDict.values (mappings e)))
    by apply search_loop_sublist.
  split; [done|]. split.
  - rewrite total_mappings_len. apply sublist_length in Hsub.
    unfold PyDict.values in Hsub. by rewrite length_map in Hsub.
  - assert (Hmap : sublist
               (map namaste_code
                  (search_mappings str_lower e query search_fields))
               (map namaste_code (PyDict.values (mappings e))))
      by by apply (fmap_sublist namaste_code).
    refine (sublist_NoDup _ _ _ Hmap).
    apply init_Ok in He as ->. unfold loaded_state.
    rewrite forward_values_codes. apply NoDup_first_occurrences.
Qed.

Lemma search_results_sublist_witness :
  MappingEngine_init (Some duplicate_source_data)
    = Ok (loaded_state duplicate_source_data)
  /\ search_mappings PyStr.ascii_lower (loaded_state duplicate_source_data)
       "pandu" None
     = [pandu_again]
  /\ NoDup (map namaste_code
       (search_mappings PyStr.ascii_lower
          (loaded_state duplicate_source_data) "pandu" None)).
Proof.
  split; [reflexivity|]. split; [reflexivity|].
  exact (proj2 (proj2 (search_results_sublist PyStr.ascii_lower
                  duplicate_source_data
                  (loaded_state duplicate_source_data) "pandu" None
                  eq_refl))).
Defined.

Lemma string_app_assoc (a b c : string) : (a +:+ b) +:+ c = a +:+ b +:+ c.
Proof.
  induction a as [|x a IH]; [done|].
  change (String x ((a +:+ b) +:+ c) = String x (a +:+ b +:+ c)).
  by rewrite IH.
Qed.

Lemma contains_trans p q t :
  PyStr.contains p q = true -> PyStr.contains q t = true ->
  PyStr.contains p t = true.
Proof.
  rewrite !contains_spec. intros (a & b & ->) (a' & b' & ->).
  exists (a' +:+ a), (b +:+ b'). by rewrite !string_app_assoc.
Qed.

Lemma any_field_hit_narrow str_lower q q' m fields :
  PyStr.contains q q' = true ->
  any_field_hit str_lower q' m fields = true ->
  any_field_hit str_lower q m fields = true.
Proof.
  intros Hq. rewrite !any_field_hit_spec.
  intros (f & Hf & (v & Hv & Hne & Hc)%field_hit_spec). exists f.
  split; [done|]. apply field_hit_spec. exists v.
  split; [done|]. split; [done|]. by eapply contains_trans.
Qed.

(** X18: lengthening a query can only narrow the result: when the
    lower-cased query [q] is a substring of the lower-cased query [q'],
    the records found for [q'] are a sub-sequence of the records found
    for [q]. *)
Theorem longer_query_narrows str_lower self q q' search_fields :
  PyStr.contains (str_lower q) (str_lower q') = true ->
  sublist (search_mappings str_lower self q' search_fields)
          (search_mappings str_lower self q search_fields).
Proof.
  intros Hq. unfold search_mappings.
  induction (PyDict.values (mappings self)) as [|m ms IH]; simpl;
    [constructor|].
  destruct (any_field_hit str_lower (str_lower q') m _) eqn:E.
  - rewrite (any_field_hit_narrow _ _ _ _ _ Hq E). by constructor.
  - destruct (any_field_hit str_lower (str_lower q) m _);
      [by constructor|done].
Qed.

Lemma longer_query_narrows_witness :
  PyStr.contains (PyStr.ascii_lower "Diabetes")
                 (PyStr.ascii_lower "diabetes mellitus, type") = true
  /\ search_mappings PyStr.ascii_lower (loaded_state unsorted_data)
       "diabetes mellitus, type" None = [prameha]
  /\ search_mappings PyStr.ascii_lower (loaded_state unsorted_data)
       "Diabetes" None
     = [madhumeha; prameha]
  /\ sublist
       (search_mappings PyStr.ascii_lower (loaded_state unsorted_data)
          "diabetes mellitus, type" None)
       (search_mappings PyStr.ascii_lower (loaded_state unsorted_data)
          "Diabetes" None).
Proof.
  split; [reflexivity|]. split; [reflexivity|]. split; [reflexivity|].
  exact (longer_query_narrows PyStr.ascii_lower (loaded_state unsorted_data)
           "Diabetes" "diabetes mellitus, type" None eq_refl).
Defined.

(** X19: with the engine in place, the search handler reports the number
    of all the records found, returns the first [limit] of them as
    dictionaries, and reports how many it returned, which is the smaller
    of [limit] and the number found. *)
Theorem search_handler_counts str_lower engine q limit :
  exists r,
    search_handler str_lower (Some engine) q limit = Response r
    /\ SearchResponse.query r = q
    /\ SearchResponse.total_results r
       = length (search_mappings str_lower engine q None)
    /\ SearchResponse.returned_results r
       = Nat.min limit (SearchResponse.total_results r)
    /\ length (SearchResponse.results r) = SearchResponse.returned_results r
    /\ SearchResponse.results r
       = map to_dict
           (take limit (search_mappings str_lower engine q None)).
Proof.
  eexists. split; [reflexivity|]. simpl.
  rewrite length_map, length_take. by repeat split.
Qed.

(** ** Concept maps *)

Lemma forward_value_get md ms m :
  m ∈ PyDict.values (mappings (indexed_all (empty_engine md) ms)) ->
  PyDict.get (namaste_code m) (mappings (indexed_all (empty_engine md) ms))
  = Some m.
Proof.
  intros Hin. apply values_keyed_get in Hin as [k Hk].
  - pose proof (forward_entries_keyed md ms) as Hkeyed.
    rewrite Forall_forall in Hkeyed.
    specialize (Hkeyed (k, m) (PyDictFacts.get_Some_items _ _ _ Hk)).
    simpl in Hkeyed. by subst k.
  - rewrite forward_keys. apply NoDup_first_occurrences.
Qed.

(** X20: on a loaded engine the forward grouping has one element per
    entry of the forward index, in index order (the distinct source codes
    in order of first occurrence); each element has exactly one target,
    taken with the display from the record the index holds for that source
    code. *)
Theorem forward_grouping data e :
  MappingEngine_init (Some data) = Ok e ->
  exists elements,
    get_mappings_for_concept_map e namaste_system_uri icd11_system_uri
      = Ok elements
    /\ map ConceptEntry.source_code elements
       = first_occurrences (map namaste_code (dataset_records data))
    /\ NoDup (map ConceptEntry.source_code elements)
    /\ forall g, g ∈ elements ->
         exists m,
           PyDict.get (ConceptEntry.source_code g) (mappings e) = Some m
           /\ ConceptEntry.source_display g = namaste_display m
           /\ ConceptEntry.targets g
              = [ConceptTarget.mk (icd11_code m) (icd11_display m)
                   (EquivalenceEnum_value (equivalence m))].
Proof.
  intros -> %init_Ok. unfold loaded_state.
  set (md := default ∅ (ds_metadata data)).
  set (ms := dataset_records data).
  exists (map forward_entry
            (PyDict.values (mappings (indexed_all (empty_engine md) ms)))).
  assert (Hcodes :
    map ConceptEntry.source_code
      (map forward_entry
         (PyDict.values (mappings (indexed_all (empty_engine md) ms))))
    = first_occurrences (map namaste_code ms)).
  { rewrite map_map. simpl. apply forward_values_codes. }
  split; [reflexivity|]. split; [done|]. split.
  - rewrite Hcodes. apply NoDup_first_occurrences.
  - intros g (m & -> & Hin)%list_elem_of_fmap. exists m. simpl.
    split; [|done]. by apply forward_value_get.
Qed.

Lemma forward_grouping_witness :
  MappingEngine_init (Some duplicate_source_data)
    = Ok (loaded_state duplicate_source_data)
  /\ get_mappings_for_concept_map (loaded_state duplicate_source_data)
       namaste_system_uri icd11_system_uri
     = Ok [ConceptEntry.mk "NAM-1001" "Pandu (revised)"
             [ConceptTarget.mk "3A00" "Anaemia, unspecified" "inexact"]]
  /\ exists elements,
    get_mappings_for_concept_map (loaded_state duplicate_source_data)
        namaste_system_uri icd11_system_uri
      = Ok elements
    /\ map ConceptEntry.source_code elements
       = first_occurrences
           (map namaste_code (dataset_records duplicate_source_data))
    /\ NoDup (map ConceptEntry.source_code elements)
    /\ forall g, g ∈ elements ->
         exists m,
           PyDict.get (ConceptEntry.source_code g)
             (mappings (loaded_state duplicate_source_data)) = Some m
           /\ ConceptEntry.source_display g = namaste_display m
           /\ ConceptEntry.targets g
              = [ConceptTarget.mk (icd11_code m) (icd11_display m)
                   (EquivalenceEnum_value (equivalence m))].
Proof.
  split; [reflexivity|]. split; [reflexivity|].
  exact (forward_grouping duplicate_source_data
           (loaded_state duplicate_source_data) eq_refl).
Defined.

(** X21: for every pair of system URIs other than the two supported
    pairs, the grouping is the empty list; it is not an error. *)
Theorem grouping_unsupported_direction self source_system target_system :
  (source_system, target_system) ≠ (namaste_system_uri, icd11_system_uri) ->
  (source_system, target_system) ≠ (icd11_system_uri, namaste_system_uri) ->
  get_mappings_for_concept_map self source_system target_system = Ok [].
Proof.
  intros H1 H2. unfold get_mappings_for_concept_map.
  destruct (String.eqb_spec source_system namaste_system_uri) as [Ha|Ha];
    destruct (String.eqb_spec target_system icd11_system_uri) as [Hb|Hb];
    destruct (String.eqb_spec source_system icd11_system_uri) as [Hc|Hc];
    destruct (String.eqb_spec target_system namaste_system_uri) as [Hd|Hd];
    simpl; try done; exfalso; (apply H1 + apply H2); congruence.
Qed.

Lemma grouping_unsupported_direction_witness :
  (icd11_system_uri, icd11_system_uri)
    ≠ (namaste_system_uri, icd11_system_uri)
  /\ (icd11_system_uri, icd11_system_uri)
    ≠ (icd11_system_uri, namaste_system_uri)
  /\ get_mappings_for_concept_map (loaded_state pandu_data)
       icd11_system_uri icd11_system_uri = Ok [].
Proof.
  assert (H1 : (icd11_system_uri, icd11_system_uri)
               ≠ (namaste_system_uri, icd11_system_uri)) by discriminate.
  assert (H2 : (icd11_system_uri, icd11_system_uri)
               ≠ (icd11_system_uri, namaste_system_uri)) by discriminate.
  split; [exact H1|]. split; [exact H2|].
  exact (grouping_unsupported_direction (loaded_state pandu_data)
           icd11_system_uri icd11_system_uri H1 H2).
Defined.

Lemma build_targets_reverse ms :
  build_targets (map reverse_target ms) = Ok (map reverse_map_target ms).
Proof.
  induction ms as [|m ms IH]; simpl; [done|].
  by rewrite EquivalenceEnum_call_value, IH.
Qed.

Lemma build_elements_reverse items :
  build_elements (map group_entry items)
  = Ok (map (fun item =>
               ConceptMapElement.mk item.1
                 (Some (from_option icd11_display EmptyString (head item.2)))
                 (map reverse_map_target item.2)) items).
Proof.
  induction items as [|[k l] items IH]; simpl; [done|].
  by rewrite build_targets_reverse, IH.
Qed.

Lemma build_elements_forward ms :
  build_elements (map forward_entry ms)
  = Ok (map (fun m =>
               ConceptMapElement.mk (namaste_code m)
                 (Some (namaste_display m)) [forward_map_target m]) ms).
Proof.
  induction ms as [|m ms IH]; simpl; [done|].
  by rewrite EquivalenceEnum_call_value, IH.
Qed.

Lemma reverse_grouping_loaded md ms :
  get_mappings_for_concept_map (indexed_all (empty_engine md) ms)
    icd11_system_uri namaste_system_uri
  = Ok (map group_entry
          (PyDict.items (reverse_mappings (indexed_all (empty_engine md) ms)))).
Proof.
  rewrite get_mappings_for_concept_map_reverse.
  rewrite reverse_group_loop_spec; [done| |].
  - change (NoDup (PyDict.keys
              (reverse_mappings (indexed_all (empty_engine md) ms)))).
    rewrite reverse_keys. apply NoDup_first_occurrences.
  - apply Forall_forall. intros [k l] Hin.
    split; [apply not_elem_of_empty|].
    by apply reverse_items in Hin as [_ ?].
Qed.

(** X22: on a loaded engine the handler answers the identifier
    [icd11-to-namaste] with a ConceptMap resource, never with an error: it
    carries the identifier, the canonical URL built from it and the
    predefined name, and one group from the classification URI to the
    traditional-medicine URI with one element per distinct target code of
    the dataset; the targets of an element are the records of the dataset
    with that target code, each with its own equivalence. *)
Theorem reverse_concept_map_resource data e :
  MappingEngine_init (Some data) = Ok e ->
  exists cm elements,
    get_concept_map (Some e) "icd11-to-namaste" = Response cm
    /\ ConceptMapResource.resourceType cm = "ConceptMap"
    /\ ConceptMapResource.id cm = "icd11-to-namaste"
    /\ ConceptMapResource.url cm
       = "http://ayushbridge.org/fhir/ConceptMap/icd11-to-namaste"
    /\ ConceptMapResource.name cm = "ICD11toNAMASTE"
    /\ ConceptMapResource.status cm = "active"
    /\ ConceptMapResource.group cm
       = [ConceptMapGroup.mk icd11_system_uri namaste_system_uri elements]
    /\ map ConceptMapElement.code elements
       = first_occurrences (map icd11_code (dataset_records data))
    /\ forall el, el ∈ elements ->
         ConceptMapElement.target el
         = map reverse_map_target
             (with_target (ConceptMapElement.code el) (dataset_records data)).
Proof.
  intros -> %init_Ok. unfold loaded_state.
  set (md := default ∅ (ds_metadata data)).
  set (ms := dataset_records data).
  set (e := indexed_all (empty_engine md) ms).
  eexists _, _. split.
  { unfold get_concept_map. simpl.
    change "http://id.who.int/icd11/mms" with icd11_system_uri.
    change "http://namaste.gov.in/fhir/CodeSystem/namaste"
      with namaste_system_uri.
    unfold e. rewrite reverse_grouping_loaded. simpl.
    unfold build_concept_map. rewrite build_elements_reverse. reflexivity. }
  simpl. repeat split.
  - rewrite map_map. simpl. rewrite <- (reverse_keys md). done.
  - intros el (item & -> & Hin)%list_elem_of_fmap. destruct item as [k l].
    simpl. by apply reverse_items in Hin as [-> _].
Qed.

Lemma reverse_concept_map_resource_witness :
  MappingEngine_init (Some shared_target_data)
    = Ok (loaded_state shared_target_data)
  /\ get_concept_map (Some (loaded_state shared_target_data))
       "icd11-to-namaste"
     = Response
         (ConceptMapResource.mk "ConceptMap" "icd11-to-namaste"
            "http://ayushbridge.org/fhir/ConceptMap/icd11-to-namaste"
            "ICD11toNAMASTE" "Mapping from ICD-11 to NAMASTE" "active"
            (Some ("Reverse mapping between ICD-11 codes and NAMASTE codes "
                   +:+ "for traditional Indian medicine"))
            [ConceptMapGroup.mk icd11_system_uri namaste_system_uri
               [ConceptMapElement.mk "DB64.0"
                  (Some "Iron deficiency anaemia")
                  [ConceptMapTarget.mk "NAM-1001" (Some "Pandu") equivalent;
                   ConceptMapTarget.mk "NAM-1002" (Some "Kamala") wider]]])
  /\ exists cm elements,
       get_concept_map (Some (loaded_state shared_target_data))
         "icd11-to-namaste" = Response cm
       /\ ConceptMapResource.group cm
          = [ConceptMapGroup.mk icd11_system_uri namaste_system_uri elements].
Proof.
  split; [reflexivity|]. split; [reflexivity|].
  destruct (reverse_concept_map_resource shared_target_data
              (loaded_state shared_target_data) eq_refl)
    as (cm & elements & H1 & _ & _ & _ & _ & _ & H2 & _).
  by exists cm, elements.
Defined.

Lemma get_mappings_for_concept_map_forward self :
  get_mappings_for_concept_map self namaste_system_uri icd11_system_uri
  = Ok (map forward_entry (PyDict.values (mappings self))).
Proof. reflexivity. Qed.

(** X23: on a loaded engine the handler answers the identifier
    [namaste-to-icd11] with a ConceptMap resource, never with an error:
    one group from the traditional-medicine URI to the classification URI,
    with one element per distinct source code of the dataset, each with
    the single target of the record the forward index holds for it. *)
Theorem forward_concept_map_resource data e :
  MappingEngine_init (Some data) = Ok e ->
  exists cm elements,
    get_concept_map (Some e) "namaste-to-icd11" = Response cm
    /\ ConceptMapResource.id cm = "namaste-to-icd11"
    /\ ConceptMapResource.url cm
       = "http://ayushbridge.org/fhir/ConceptMap/namaste-to-icd11"
    /\ ConceptMapResource.name cm = "NAMASTEtoICD11"
    /\ ConceptMapResource.group cm
       = [ConceptMapGroup.mk namaste_system_uri icd11_system_uri elements]
    /\ map ConceptMapElement.code elements
       = first_occurrences (map namaste_code (dataset_records data))
    /\ forall el, el ∈ elements ->
         exists m,
           PyDict.get (ConceptMapElement.code el) (mappings e) = Some m
           /\ ConceptMapElement.display el = Some (namaste_display m)
           /\ ConceptMapElement.target el = [forward_map_target m].
Proof.
  intros -> %init_Ok. unfold loaded_state.
  set (md := default ∅ (ds_metadata data)).
  set (ms := dataset_records data).
  set (e := indexed_all (empty_engine md) ms).
  eexists _, _. split.
  { unfold get_concept_map. simpl.
    change "http://id.who.int/icd11/mms" with icd11_system_uri.
    change "http://namaste.gov.in/fhir/CodeSystem/namaste"
      with namaste_system_uri.
    unfold build_concept_map. rewrite build_elements_forward. reflexivity. }
  simpl. repeat split.
  - rewrite map_map. simpl. apply forward_values_codes.
  - intros el (m & -> & Hin)%list_elem_of_fmap. exists m. simpl.
    split; [|done]. by apply forward_value_get.
Qed.

Lemma forward_concept_map_resource_witness :
  MappingEngine_init (Some pandu_data) = Ok (loaded_state pandu_data)
  /\ get_concept_map (Some (loaded_state pandu_data)) "namaste-to-icd11"
     = Response
         (ConceptMapResource.mk "ConceptMap" "namaste-to-icd11"
            "http://ayushbridge.org/fhir/ConceptMap/namaste-to-icd11"
            "NAMASTEtoICD11" "Mapping from NAMASTE to ICD-11" "active"
            (Some ("Official mapping between NAMASTE codes for traditional "
                   +:+ "Indian medicine and ICD-11 codes"))
            [ConceptMapGroup.mk namaste_system_uri icd11_system_uri
               [ConceptMapElement.mk "NAM-1001" (Some "Pandu")
                  [ConceptMapTarget.mk "DB64.0"
                     (Some "Iron deficiency anaemia") equivalent]]])
  /\ exists cm elements,
       get_concept_map (Some (loaded_state pandu_data)) "namaste-to-icd11"
         = Response cm
       /\ ConceptMapResource.group cm
          = [ConceptMapGroup.mk namaste_system_uri icd11_system_uri elements].
Proof.
  split; [reflexivity|]. split; [reflexivity|].
  destruct (forward_concept_map_resource pandu_data
              (loaded_state pandu_data) eq_refl)
    as (cm & elements & H1 & _ & _ & _ & H2 & _).
  by exists cm, elements.
Defined.

(** X24: an identifier other than the two predefined ones is answered
    with a 404 that quotes it, whether or not the engine is in place. *)
Theorem unknown_concept_map_is_404 mapping_engine concept_map_id :
  concept_map_id ≠ "namaste-to-icd11" ->
  concept_map_id ≠ "icd11-to-namaste" ->
  get_concept_map mapping_engine concept_map_id
  = HTTPException 404 ("ConceptMap '" +:+ concept_map_id +:+ "' not found").
Proof.
  intros H1 H2. unfold get_concept_map. simpl.
  destruct (String.eqb_spec concept_map_id "namaste-to-icd11"); [done|].
  by destruct (String.eqb_spec concept_map_id "icd11-to-namaste").
Qed.

Lemma unknown_concept_map_is_404_witness :
  "NAMASTE-to-ICD11" ≠ "namaste-to-icd11"
  /\ "NAMASTE-to-ICD11" ≠ "icd11-to-namaste"
  /\ get_concept_map None "NAMASTE-to-ICD11"
     = HTTPException 404 "ConceptMap 'NAMASTE-to-ICD11' not found".
Proof.
  assert (H1 : "NAMASTE-to-ICD11" ≠ "namaste-to-icd11") by discriminate.
  assert (H2 : "NAMASTE-to-ICD11" ≠ "icd11-to-namaste") by discriminate.
  split; [exact H1|]. split; [exact H2|].
  exact (unknown_concept_map_is_404 None "NAMASTE-to-ICD11" H1 H2).
Defined.

Lemma build_targets_Ok targets :
  (exists ts, build_targets targets = Ok ts) <->
  Forall (fun t => is_Some (EquivalenceEnum_lookup
                              (ConceptTarget.equivalence t))) targets.
Proof.
  induction targets as [|t targets IH]; simpl.
  - split; [by constructor|by exists []].
  - unfold EquivalenceEnum_call.
    destruct (EquivalenceEnum_lookup _) as [e|] eqn:E; simpl.
    + destruct (build_targets targets) as [ts|x]; simpl.
      * split; [|by eexists]. intros _. constructor; [by eexists|].
        apply IH. by eexists.
      * split; [by intros [? ?]|]. intros [_ H]%Forall_cons.
        apply IH in H as [? ?]. done.
    + split; [by intros [? ?]|]. intros [[? H] _]%Forall_cons. congruence.
Qed.

Lemma build_elements_Ok mappings :
  (exists els, build_elements mappings = Ok els
               /\ map ConceptMapElement.code els
                  = map ConceptEntry.source_code mappings) <->
  Forall (fun g =>
            Forall (fun t => is_Some (EquivalenceEnum_lookup
                                        (ConceptTarget.equivalence t)))
                   (ConceptEntry.targets g)) mappings.
Proof.
  induction mappings as [|g mappings IH]; simpl.
  - split; [by constructor|by exists []].
  - destruct (build_targets (ConceptEntry.targets g)) as [ts|x] eqn:E; simpl.
    + assert (Hg : Forall (fun t => is_Some (EquivalenceEnum_lookup
                                     (ConceptTarget.equivalence t)))
                          (ConceptEntry.targets g))
        by (apply build_targets_Ok; by eexists).
      destruct (build_elements mappings) as [els|x]; simpl.
      * split.
        -- intros (? & [= <-] & [= Hc]). constructor; [done|].
           apply IH. by eexists.
        -- intros [_ H]%Forall_cons. apply IH in H as (els' & [= <-] & Hc).
           eexists. split; [done|]. simpl. by rewrite Hc.
      * split; [by intros (? & ? & _)|]. intros [_ H]%Forall_cons.
        apply IH in H as (? & ? & _). done.
    + split; [by intros (? & ? & _)|]. intros [H _]%Forall_cons.
      apply build_targets_Ok in H as [? H]. congruence.
Qed.

(** X25: [build_concept_map] succeeds exactly when the equivalence text
    of every target of every mapping is one of the ten codes (otherwise it
    raises); when it succeeds the resource has the canonical URL of the
    identifier and a single group whose elements carry the source codes of
    the mappings, in order. *)
Theorem build_concept_map_succeeds_iff map_id name title source_system
    target_system mappings description :
  (exists cm elements,
     build_concept_map map_id name title source_system target_system
       mappings description = Ok cm
     /\ ConceptMapResource.url cm
        = "http://ayushbridge.org/fhir/ConceptMap/" +:+ map_id
     /\ ConceptMapResource.group cm
        = [ConceptMapGroup.mk source_system target_system elements]
     /\ map ConceptMapElement.code elements
        = map ConceptEntry.source_code mappings) <->
  Forall (fun g =>
            Forall (fun t => is_Some (EquivalenceEnum_lookup
                                        (ConceptTarget.equivalence t)))
                   (ConceptEntry.targets g)) mappings.
Proof.
  rewrite <- build_elements_Ok. unfold build_concept_map. split.
  - intros (cm & elements & H & _ & Hg & Hc).
    destruct (build_elements mappings) as [els|x]; simpl in H; [|done].
    injection H as <-. simpl in Hg. injection Hg as <-. by exists els.
  - intros (els & -> & Hc). simpl. by eexists _, els.
Qed.

(** ** Statistics, validation and the language check *)

Lemma get_bump k k' (d : PyDict.t nat) :
  PyDict.get k (bump k' d)
  = if decide (k = k') then Some (default 0 (PyDict.get k d) + 1)
    else PyDict.get k d.
Proof.
  unfold bump. destruct (decide (k = k')) as [->|Hne].
  - apply PyDictFacts.get_setitem_eq.
  - apply PyDictFacts.get_setitem_ne. congruence.
Qed.

Lemma count_loop_get ms : forall sc ec k,
  PyDict.get k (count_loop sc ec ms).1
  = match length (filter (fun m => namaste_system m = k) ms) with
    | 0 => PyDict.get k sc
    | S n => Some (default 0 (PyDict.get k sc) + S n)
    end
  /\ PyDict.get k (count_loop sc ec ms).2
     = match length (filter (fun m =>
                        EquivalenceEnum_value (equivalence m) = k) ms) with
       | 0 => PyDict.get k ec
       | S n => Some (default 0 (PyDict.get k ec) + S n)
       end.
Proof.
  induction ms as [|m ms IH]; intros sc ec k; simpl; [done|].
  destruct (IH (bump (namaste_system m) sc)
               (bump (EquivalenceEnum_value (equivalence m)) ec) k)
    as [H1 H2].
  rewrite H1, H2, !get_bump. clear H1 H2 IH. split.
  - destruct (decide (namaste_system m = k)) as [Heq|Hne].
    + rewrite filter_cons_True by done. rewrite decide_True by done. simpl.
      destruct (length _); f_equal; lia.
    + rewrite filter_cons_False by done. by rewrite decide_False by done.
  - destruct (decide (EquivalenceEnum_value (equivalence m) = k))
      as [Heq|Hne].
    + rewrite filter_cons_True by done. rewrite decide_True by done. simpl.
      destruct (length _); f_equal; lia.
    + rewrite filter_cons_False by done. by rewrite decide_False by done.
Qed.

(** X26: in every state of the engine, the statistics hold under a
    system tag the number of forward-index records with that tag, and
    under an equivalence value the number of records with that value; a
    tag or value that no record has is absent, so no count is zero. *)
Theorem statistics_count_per_key self k :
  PyDict.get k (by_traditional_system (get_statistics self))
  = match length (filter (fun m => namaste_system m = k)
                         (PyDict.values (mappings self))) with
    | 0 => None
    | S n => Some (S n)
    end
  /\ PyDict.get k (by_equivalence (get_statistics self))
     = match length (filter (fun m =>
                        EquivalenceEnum_value (equivalence m) = k)
                       (PyDict.values (mappings self))) with
       | 0 => None
       | S n => Some (S n)
       end.
Proof.
  unfold get_statistics.
  pose proof (count_loop_get (PyDict.values (mappings self))
                PyDict.empty PyDict.empty k) as [H1 H2].
  destruct (count_loop _ _ _) as [sc ec]. simpl in *.
  by rewrite H1, H2.
Qed.

(** X27: for a loaded dataset, [total_mappings] is the number of distinct
    source codes and [reverse_mappings] the number of distinct target
    codes of the dataset; neither exceeds the number of records, and the
    total equals it when no source code is repeated; the metadata of the
    file (empty when the file has none) is passed on unchanged. *)
Theorem statistics_of_loaded_dataset data e :
  MappingEngine_init (Some data) = Ok e ->
  let s := get_statistics e in
  total_mappings s
    = length (first_occurrences (map namaste_code (dataset_records data)))
  /\ reverse_mappings_count s
     = length (first_occurrences (map icd11_code (dataset_records data)))
  /\ total_mappings s <= length (dataset_records data)
  /\ reverse_mappings_count s <= length (dataset_records data)
  /\ (NoDup (map namaste_code (dataset_records data)) ->
      total_mappings s = length (dataset_records data))
  /\ stats_metadata s = default ∅ (ds_metadata data).
Proof.
  intros -> %init_Ok. unfold loaded_state.
  set (md := default ∅ (ds_metadata data)).
  set (ms := dataset_records data). simpl.
  assert (Ht : total_mappings
                 (get_statistics (indexed_all (empty_engine md) ms))
               = length (first_occurrences (map namaste_code ms))).
  { rewrite total_mappings_len, <- (length_map fst).
    change (length (PyDict.keys (mappings (indexed_all (empty_engine md) ms)))
            = length (first_occurrences (map namaste_code ms))).
    by rewrite forward_keys. }
  assert (Hr : reverse_mappings_count
                 (get_statistics (indexed_all (empty_engine md) ms))
               = length (first_occurrences (map icd11_code ms))).
  { unfold get_statistics. destruct (count_loop _ _ _). simpl.
    unfold PyDict.len. rewrite <- (length_map fst).
    change (length (PyDict.keys
              (reverse_mappings (indexed_all (empty_engine md) ms)))
            = length (first_occurrences (map icd11_code ms))).
    by rewrite reverse_keys. }
  rewrite Ht, Hr.
  pose proof (first_occurrences_length (map namaste_code ms)) as H1.
  pose proof (first_occurrences_length (map icd11_code ms)) as H2.
  rewrite length_map in H1, H2.
  split; [done|]. split; [done|]. split; [done|]. split; [done|]. split.
  - intros Hnd. by rewrite (first_occurrences_NoDup _ Hnd), length_map.
  - unfold get_statistics. destruct (count_loop _ _ _). simpl.
    apply indexed_all_metadata.
Qed.

Lemma statistics_of_loaded_dataset_witness :
  MappingEngine_init (Some duplicate_source_data)
    = Ok (loaded_state duplicate_source_data)
  /\ total_mappings (get_statistics (loaded_state duplicate_source_data)) = 1
  /\ reverse_mappings_count
       (get_statistics (loaded_state duplicate_source_data)) = 2
  /\ length (dataset_records duplicate_source_data) = 2
  /\ total_mappings (get_statistics (loaded_state duplicate_source_data))
     = length (first_occurrences
                 (map namaste_code (dataset_records duplicate_source_data))).
Proof.
  split; [reflexivity|]. split; [reflexivity|]. split; [reflexivity|].
  split; [reflexivity|].
  exact (proj1 (statistics_of_loaded_dataset duplicate_source_data
                  (loaded_state duplicate_source_data) eq_refl)).
Defined.

Lemma truthy_iff s : PyStr.truthy s = true <-> s ≠ EmptyString.
Proof. by destruct s. Qed.

(** X28: [validate_mapping] has no complaint exactly when the two codes
    and the two displays are not empty and the system tag is one of
    Ayurveda, Siddha, Unani; it never has more than five complaints. *)
Theorem validate_mapping_accepts_iff m :
  (validate_mapping m = [] <->
   namaste_code m ≠ EmptyString /\ icd11_code m ≠ EmptyString
   /\ namaste_display m ≠ EmptyString /\ icd11_display m ≠ EmptyString
   /\ namaste_system m ∈ traditional_systems)
  /\ length (validate_mapping m) <= 5.
Proof.
  assert (Hsys : recognized_system (namaste_system m) = true
                 <-> namaste_system m ∈ traditional_systems).
  { unfold recognized_system. rewrite existsb_exists, list_elem_of_In.
    split.
    - intros (x & Hin & ->%String.eqb_eq). done.
    - intros Hin. exists (namaste_system m). by rewrite String.eqb_refl. }
  rewrite <- !truthy_iff, <- Hsys. unfold validate_mapping.
  destruct (PyStr.truthy (namaste_code m)), (PyStr.truthy (icd11_code m)),
    (PyStr.truthy (namaste_display m)), (PyStr.truthy (icd11_display m)),
    (recognized_system (namaste_system m)); simpl;
    (split; [split; [try done; by intros _|by intros (? & ? & ? & ? & ?)]
            |lia]).
Qed.

Lemma ascii_lower_length s :
  String.length (PyStr.ascii_lower s) = String.length s.
Proof. induction s as [|c s IH]; simpl; [done|]. by rewrite IH. Qed.

Lemma supported_languages_two_letters :
  Forall (fun l => String.length l = 2) SUPPORTED_LANGUAGES.
Proof. unfold SUPPORTED_LANGUAGES. repeat constructor. Qed.

Lemma validate_language_code_spec str_lower language :
  validate_language_code str_lower language = true
  <-> str_lower language ∈ SUPPORTED_LANGUAGES.
Proof.
  unfold validate_language_code. rewrite existsb_exists, list_elem_of_In.
  split.
  - by intros (x & Hin & ->%String.eqb_eq).
  - intros Hin. exists (str_lower language). by rewrite String.eqb_refl.
Qed.

(** X29: the language check looks at the lower-cased code only. For a
    code of ASCII characters it accepts exactly when the ASCII lower-casing
    of the code is one of the supported languages, it gives the same answer
    for every ASCII case variant of the code, and it accepts only codes of
    exactly two characters. *)
Theorem language_code_check str_lower language :
  PyStr.lower_on_ascii str_lower ->
  PyStr.is_ascii language = true ->
  (validate_language_code str_lower language = true
   <-> PyStr.ascii_lower language ∈ SUPPORTED_LANGUAGES)
  /\ (forall variant,
        PyStr.is_ascii variant = true ->
        PyStr.case_variant language variant = true ->
        validate_language_code str_lower variant
        = validate_language_code str_lower language)
  /\ (validate_language_code str_lower language = true ->
      String.length language = 2).
Proof.
  intros Hlow Hascii.
  assert (Hspec : validate_language_code str_lower language = true
                  <-> PyStr.ascii_lower language ∈ SUPPORTED_LANGUAGES)
    by by rewrite validate_language_code_spec, (Hlow _ Hascii).
  split; [done|]. split.
  - intros variant Hv Hcv. unfold validate_language_code.
    by rewrite (Hlow _ Hascii), (Hlow _ Hv), (case_variant_lower _ _ Hcv).
  - intros Hin%Hspec.
    pose proof supported_languages_two_letters as Hall.
    rewrite Forall_forall in Hall. specialize (Hall _ Hin).
    by rewrite ascii_lower_length in Hall.
Qed.

Lemma language_code_check_witness :
  PyStr.lower_on_ascii PyStr.ascii_lower
  /\ PyStr.is_ascii "HI" = true
  /\ PyStr.case_variant "HI" "hi" = true
  /\ validate_language_code PyStr.ascii_lower "HI" = true
  /\ validate_language_code PyStr.ascii_lower "hi"
     = validate_language_code PyStr.ascii_lower "HI"
  /\ String.length "HI" = 2.
Proof.
  pose proof (language_code_check PyStr.ascii_lower "HI"
                (fun s _ => eq_refl) eq_refl) as H.
  split; [by intros s _|]. split; [reflexivity|]. split; [reflexivity|].
  split; [reflexivity|]. split.
  - exact (proj1 (proj2 H) "hi" eq_refl eq_refl).
  - exact (proj2 (proj2 H) eq_refl).
Defined.

(** ** The error resource *)

(** X30: for every message and code, the error resource has its result
    flag false and carries no match and no coding; its second parameter
    is the message, and the error code follows exactly when it is present
    and not empty. *)
Theorem build_error_parameters_shape error_message error_code :
  let r := build_error_parameters error_message error_code in
  result_flag r = Some false
  /\ match_parameters r = []
  /\ target_codings r = []
  /\ ParametersResource.parameter r !! 1
     = Some (FhirParameter.mk "error" None (Some error_message) None)
  /\ ParametersResource.parameter r !! 2
     = (if opt_truthy error_code
        then Some (FhirParameter.mk "error_code" None error_code None)
        else None)
  /\ length (ParametersResource.parameter r)
     = (if opt_truthy error_code then 3 else 2).
Proof.
  unfold build_error_parameters. by destruct (opt_truthy error_code).
Qed.
